(** * Farfield post-processing helpers of cst_python_api

    A shallow embedding of [src/cst_python_api/farfield.py]: the shared
    argument validator [_validate_common_inputs] and the two coroutines
    [get_gain_at_freq] and [get_axial_ratio_at_freq].

    Python floats are IEEE 754 binary64 values, which is what Rocq's
    primitive [float] is, so the arithmetic of the two reductions is the
    kernel's own ([+], [-], [*], [/], the comparisons), specified by the
    [FloatAxioms] of the library.  The two transcendental operations the
    source takes from its runtime ([**] on floats and [np.log10]) and the
    parser behind [float(str)] are parameters of the development.

    numpy is taken at version 2.2 or later: an array has at most 64 axes,
    and an empty array has no truth value. *)

From Stdlib Require Import ZArith List String Bool Lia.
From Stdlib Require Import Floats.
Import ListNotations.

Set Warnings "-inexact-float".

(* ===================================================================== *)
(** ** Python values and exceptions *)
(* ===================================================================== *)

(** The Python objects that reach the helpers, as arguments or as entries
    of the collaborator's answer.  [PyList] stands for any sequence with
    entries (list, tuple, ndarray). *)
#[warnings="-register-all"]
Inductive pyobj : Type :=
| PyNone
| PyBool (b : bool)
| PyInt (n : Z)
| PyFloat (x : float)
| PyStr (s : string)
| PyList (items : list pyobj).

(** Exception classes.  [CancelledError] derives from [BaseException]
    only; every other class listed derives from [Exception]. *)
Inductive exc_class : Type :=
| TypeError
| ValueError
| RuntimeError
| OverflowError
| ZeroDivisionError
| AttributeError
| IndexError
| KeyError
| com_error
| CancelledError.

Definition exc_class_eqb (a b : exc_class) : bool :=
  match a, b with
  | TypeError, TypeError | ValueError, ValueError
  | RuntimeError, RuntimeError | OverflowError, OverflowError
  | ZeroDivisionError, ZeroDivisionError | AttributeError, AttributeError
  | IndexError, IndexError | KeyError, KeyError | com_error, com_error
  | CancelledError, CancelledError => true
  | _, _ => false
  end.

(** [isinstance(err, Exception)]. *)
Definition is_Exception (c : exc_class) : bool :=
  match c with
  | CancelledError => false
  | _ => true
  end.

(** The [excepinfo] attribute of an exception object.  pywin32 stores in
    it either [None] or the tuple
    [(wcode, source, description, helpfile, helpcontext, scode)]; only the
    entry at index 2 is read here, and it is a string or [None].  The
    constructor of [com_error] keeps whatever it is given; [AttrUnreadable]
    stands for any other object, by the class and message of the
    exception that subscripting it with 2 raises: IndexError for a tuple
    with fewer than three entries, TypeError for an object that cannot be
    subscripted, KeyError for a mapping without that key. *)
Inductive excepinfo_attr : Type :=
| NoAttr
| AttrNone
| AttrTuple (description : option string)
| AttrUnreadable (raised : exc_class) (message : string).

(** An exception object: its class, [str(err)] and its [excepinfo]. *)
Record exn : Type := mkExn {
  exn_class : exc_class;
  exn_str : string;
  exn_excepinfo : excepinfo_attr
}.


(** [Cls("msg")] for the built-in classes. *)
Definition new_exn (c : exc_class) (msg : string) : exn := mkExn c msg NoAttr.

(* ===================================================================== *)
(** ** The collaborator and the effect monad *)
(* ===================================================================== *)

(** The keyword arguments of one [Results.getFarField] call. *)
Record query : Type := mkQuery {
  q_freq : pyobj;
  q_theta : list float;
  q_phi : list float;
  q_port : pyobj;
  q_mode : pyobj;
  q_plotMode : string;
  q_coordSys : string;
  q_polarization : string;
  q_component : list string;
  q_complexComp : list string;
  q_linearScale : bool
}.

(** What awaiting [myCST.Results.getFarField(...)] produces: an exception,
    or the answer, which is the list (or tuple) with one entry per
    requested component, or one ndarray holding the same data.  An ndarray
    is given by its nesting: a [PyList] per axis, any other object for an
    entry, and a bare entry for an array without axes. *)
Inductive outcome : Type :=
| Returns (values : list pyobj)
| ReturnsArray (array : pyobj)
| Raises (err : exn).

(** The object bound to [farfield_results]. *)
Inductive answer : Type :=
| ListAnswer (values : list pyobj)
| ArrayAnswer (array : pyobj).

(** The project wrapper.  [Results.getFarField] is not part of the
    sources at hand; it is the injected collaborator. *)
Record CST : Type := mkCST {
  getFarField : query -> outcome
}.

Inductive result (A : Type) : Type :=
| Ok (v : A)
| Raise (e : exn).
Arguments Ok {A} v.
Arguments Raise {A} e.

(** Computations thread the log of the queries sent to the collaborator
    and end in a value or in a raised exception. *)
Definition M (A : Type) : Type := list query -> list query * result A.

Definition ret {A} (v : A) : M A := fun log => (log, Ok v).

Definition raise {A} (e : exn) : M A := fun log => (log, Raise e).

Definition bind {A B} (c : M A) (k : A -> M B) : M B :=
  fun log =>
    match c log with
    | (log', Ok v) => k v log'
    | (log', Raise e) => (log', Raise e)
    end.

Declare Scope py_scope.
Delimit Scope py_scope with py.
Notation "x <- c ;; k" := (bind c (fun x => k))
  (at level 61, c at next level, right associativity) : py_scope.
Notation "c ;; k" := (bind c (fun _ => k))
  (at level 61, right associativity) : py_scope.
Open Scope py_scope.

(** [try: body  except ...: handler]. *)
Definition try_except {A} (body : M A) (handler : exn -> M A) : M A :=
  fun log =>
    match body log with
    | (log', Ok v) => (log', Ok v)
    | (log', Raise e) => handler e log'
    end.

(** Sending one query: it is logged, then the collaborator answers. *)
Definition send (cst : CST) (q : query) : M answer :=
  fun log =>
    match getFarField cst q with
    | Returns values => (log ++ [q], Ok (ListAnswer values))
    | ReturnsArray array => (log ++ [q], Ok (ArrayAnswer array))
    | Raises err => (log ++ [q], Raise err)
    end.

(** Calling an [async def] function builds a coroutine object; its body
    runs only when the object is awaited. *)
Inductive coroutine (A : Type) : Type :=
| async (body : M A).
Arguments async {A} body.

Definition await {A} (c : coroutine A) : M A :=
  match c with async body => body end.

(** An expression statement: the value is computed and dropped. *)
Definition expr_stmt {A} (v : A) : M unit := ret tt.

(** Awaiting a coroutine from a fresh log. *)
Definition run {A} (c : coroutine A) : list query * result A := await c [].

(* ===================================================================== *)
(** ** Built-in operations used by the helpers *)
(* ===================================================================== *)

(** The part of the Python runtime that is neither in the sources nor in
    the kernel's float arithmetic: [x ** y] on floats ([None] when CPython
    raises [OverflowError]; with the positive base used here it raises
    nothing else), [np.log10] on a float, and [float(s)] on a string
    ([None] when the text is not a number). *)
Record runtime : Type := mkRuntime {
  float_pow : float -> float -> option float;
  np_log10 : float -> float;
  float_of_str : string -> option float
}.

(** [isinstance(x, (float, int))]; [bool] is a subclass of [int]. *)
Definition isinstance_float_or_int (x : pyobj) : bool :=
  match x with
  | PyFloat _ | PyInt _ | PyBool _ => true
  | _ => false
  end.

(** The integer behind an instance of [int]. *)
Definition as_int (x : pyobj) : option Z :=
  match x with
  | PyInt n => Some n
  | PyBool b => Some (if b then 1 else 0)%Z
  | _ => None
  end.

(** [isinstance(x, int)]. *)
Definition isinstance_int (x : pyobj) : bool :=
  match as_int x with Some _ => true | None => false end.

(** [x < k] for an instance of [int]. *)
Definition int_lt (x : pyobj) (k : Z) : bool :=
  match as_int x with Some n => (n <? k)%Z | None => false end.

(** [a >= b] on floats. *)
Definition float_ge (a b : float) : bool := (b <=? a)%float.

(** The built-in [max(a, b)]: the first argument unless the second is
    greater. *)
Definition py_max (a b : float) : float := if (a <? b)%float then b else a.

(** The built-in [min(a, b)]: the first argument unless the second is
    smaller. *)
Definition py_min (a b : float) : float := if (b <? a)%float then b else a.

(** [a / b] on floats. *)
Definition truediv (a b : float) : M float :=
  if (b =? 0)%float
  then raise (new_exn ZeroDivisionError "float division by zero")
  else ret (a / b)%float.

(** [float(n)] for an integer: the nearest binary64 value, ties to even. *)
Definition float_of_int (n : Z) : M float :=
  let f := SF2Prim (binary_normalize prec emax n 0 false) in
  if is_infinity f
  then raise (new_exn OverflowError "int too large to convert to float")
  else ret f.

(** The largest number of axes numpy 2 gives an array. *)
Definition NPY_MAXDIMS : nat := 64.

(** [np.asarray(x).item()] when [dims] more axes are allowed: the only
    entry of an array of size one. *)
Fixpoint ndarray_item_within (dims : nat) (x : pyobj) {struct x} : M pyobj :=
  match x with
  | PyList items =>
      match dims with
      | O =>
          raise (new_exn ValueError
                   "setting an array element with a sequence. The requested array would exceed the maximum number of dimension of 64.")
      | S d =>
          match items with
          | [y] => ndarray_item_within d y
          | _ =>
              raise (new_exn ValueError
                       "can only convert an array of size 1 to a Python scalar")
          end
      end
  | _ => ret x
  end.

(** [np.asarray(x).item()]. *)
Definition ndarray_item (x : pyobj) : M pyobj :=
  ndarray_item_within NPY_MAXDIMS x.

(** The entries of an ndarray, in order. *)
Fixpoint leaves (array : pyobj) : list pyobj :=
  match array with
  | PyList items => flat_map leaves items
  | _ => [array]
  end.

(** [bool(x)] for an entry. *)
Definition py_truth (x : pyobj) : bool :=
  match x with
  | PyNone => false
  | PyBool b => b
  | PyInt n => negb (n =? 0)%Z
  | PyFloat v => negb (v =? 0)%float
  | PyStr EmptyString => false
  | PyStr _ => true
  | PyList [] => false
  | PyList _ => true
  end.

(** [bool(results)]: a list is true when it has an entry; an ndarray has
    a truth value only when it holds exactly one entry (numpy 2.2 and
    later also refuse the empty array). *)
Definition truth_value (results : answer) : M bool :=
  match results with
  | ListAnswer [] => ret false
  | ListAnswer _ => ret true
  | ArrayAnswer array =>
      match leaves array with
      | [] =>
          raise (new_exn ValueError
                   "The truth value of an empty array is ambiguous. Use `array.size > 0` to check that an array is not empty.")
      | [x] => ret (py_truth x)
      | _ =>
          raise (new_exn ValueError
                   "The truth value of an array with more than one element is ambiguous. Use a.any() or a.all()")
      end
  end.

(** [len(results)]. *)
Definition len (results : answer) : M nat :=
  match results with
  | ListAnswer values => ret (List.length values)
  | ArrayAnswer (PyList items) => ret (List.length items)
  | ArrayAnswer _ => raise (new_exn TypeError "len() of unsized object")
  end.

(** [results[i]]. *)
Definition subscript (results : answer) (i : nat) : M pyobj :=
  match results with
  | ListAnswer values =>
      match nth_error values i with
      | Some v => ret v
      | None => raise (new_exn IndexError "list index out of range")
      end
  | ArrayAnswer (PyList items) =>
      match nth_error items i with
      | Some v => ret v
      | None => raise (new_exn IndexError "index is out of bounds for axis 0")
      end
  | ArrayAnswer _ =>
      raise (new_exn IndexError "too many indices for array")
  end.

(** [1e-300], the floor of the axial-ratio denominator. *)
Definition floor_eps : float := 0x1.56e1fc2f8f359p-997%float.

Section Farfield.

Variable rt : runtime.

(** [a ** b] on floats. *)
Definition pow (a b : float) : M float :=
  match float_pow rt a b with
  | Some v => ret v
  | None => raise (new_exn OverflowError "(34, 'Numerical result out of range')")
  end.

(** [float(x)]. *)
Definition py_float (x : pyobj) : M float :=
  match x with
  | PyFloat v => ret v
  | PyInt n => float_of_int n
  | PyBool b => ret (if b then 1 else 0)%float
  | PyStr s =>
      match float_of_str rt s with
      | Some v => ret v
      | None => raise (new_exn ValueError "could not convert string to float")
      end
  | PyNone | PyList _ =>
      raise (new_exn TypeError
               "float() argument must be a string or a real number")
  end.

(* ===================================================================== *)
(** ** farfield.py *)
(* ===================================================================== *)

Definition _validate_common_inputs
    (myCST : option CST) (target_freq port mode : pyobj) : coroutine unit :=
  async (
    match myCST with
    | None => raise (new_exn TypeError "ERROR: myCST object must be provided.")
    | Some _ =>
      if negb (isinstance_float_or_int target_freq)
      then raise (new_exn TypeError "ERROR: target_freq must be float or int.")
      else if negb (isinstance_int port)
      then raise (new_exn TypeError "ERROR: port must be of type int.")
      else if int_lt port 1
      then raise (new_exn ValueError "ERROR: port must be an integer >= 1.")
      else if negb (isinstance_int mode)
      then raise (new_exn TypeError "ERROR: mode must be of type int.")
      else if int_lt mode 0
      then raise (new_exn ValueError "ERROR: mode must be an integer >= 0.")
      else ret tt
    end).

(** [myCST.Results.getFarField(...)], awaited. *)
Definition Results_getFarField (myCST : option CST) (q : query)
  : M answer :=
  match myCST with
  | None =>
      raise (new_exn AttributeError
               "'NoneType' object has no attribute 'Results'")
  | Some cst => send cst q
  end.

(** [details = getattr(err, "excepinfo", (None, None, ""))] followed by
    the formatting of [details[2]]. *)
Definition details_2 (err : exn) : M string :=
  match exn_excepinfo err with
  | NoAttr => ret EmptyString
  | AttrNone =>
      raise (new_exn TypeError "'NoneType' object is not subscriptable")
  | AttrTuple (Some text) => ret text
  | AttrTuple None => ret "None"%string
  | AttrUnreadable raised message => raise (new_exn raised message)
  end.

(** The two [except] clauses around the query, the same in both helpers. *)
Definition farfield_handler (err : exn) : M answer :=
  if exc_class_eqb (exn_class err) com_error then
    text <- details_2 err ;;
    raise (new_exn RuntimeError
             ("ERROR: CST failed to retrieve farfield data. Details: " ++ text)%string)
  else if is_Exception (exn_class err) then
    raise (new_exn RuntimeError
             ("ERROR: Unexpected failure retrieving farfield results. "
                ++ exn_str err)%string)
  else raise err.

Definition incomplete_msg : string :=
  "ERROR: Farfield results are empty or incomplete.".

Definition gain_parse_msg : string :=
  "ERROR: Could not extract theta/phi values from CST farfield.".

Definition axial_parse_msg : string :=
  "ERROR: Could not extract circular components from CST farfield.".

(** [not results or len(results) < 2]. *)
Definition empty_or_incomplete (results : answer) : M bool :=
  truth <- truth_value results ;;
  if negb truth then ret true
  else
    n <- len results ;;
    ret (n <? 2)%nat.

(** [float(np.asarray(results[i]).item())]. *)
Definition extract (results : answer) (i : nat) : M float :=
  entry <- subscript results i ;;
  scalar <- ndarray_item entry ;;
  py_float scalar.

Definition gain_query (target_freq port mode : pyobj) : query :=
  mkQuery target_freq [0%float] [0%float] port mode
          "realized gain" "spherical" "circular"
          ["theta"; "phi"]%string ["abs"; "abs"]%string false.

Definition get_gain_at_freq
    (myCST : option CST) (target_freq port mode : pyobj) : coroutine float :=
  async (
    expr_stmt (_validate_common_inputs myCST target_freq port mode) ;;
    farfield_results_gain <-
      try_except
        (Results_getFarField myCST (gain_query target_freq port mode))
        farfield_handler ;;
    incomplete <- empty_or_incomplete farfield_results_gain ;;
    if (incomplete : bool)
    then raise (new_exn RuntimeError incomplete_msg)
    else
      components <-
        try_except
          (theta_component <- extract farfield_results_gain 0 ;;
           phi_component <- extract farfield_results_gain 1 ;;
           ret (theta_component, phi_component))
          (fun _ => raise (new_exn RuntimeError gain_parse_msg)) ;;
      let '(theta_component, phi_component) := components in
      theta_exp <- truediv theta_component 10 ;;
      theta_lin <- pow 10 theta_exp ;;
      phi_exp <- truediv phi_component 10 ;;
      phi_lin <- pow 10 phi_exp ;;
      let gain_dBi := (10 * np_log10 rt (theta_lin + phi_lin))%float in
      ret gain_dBi).

Definition efield_query (target_freq port mode : pyobj) : query :=
  mkQuery target_freq [0%float] [0%float] port mode
          "efield" "spherical" "circular"
          ["right"; "left"]%string ["abs"; "abs"]%string true.

Definition get_axial_ratio_at_freq
    (myCST : option CST) (target_freq port mode : pyobj) : coroutine float :=
  async (
    expr_stmt (_validate_common_inputs myCST target_freq port mode) ;;
    farfield_results <-
      try_except
        (Results_getFarField myCST (efield_query target_freq port mode))
        farfield_handler ;;
    incomplete <- empty_or_incomplete farfield_results ;;
    if (incomplete : bool)
    then raise (new_exn RuntimeError incomplete_msg)
    else
      components <-
        try_except
          (right <- extract farfield_results 0 ;;
           left <- extract farfield_results 1 ;;
           ret (right, left))
          (fun _ => raise (new_exn RuntimeError axial_parse_msg)) ;;
      let right := fst components in
      let left := snd components in
      let '(e_max, e_min) :=
        if float_ge right left then (right, left) else (left, right) in
      let numerator := (e_max + e_min)%float in
      let denominator := py_max (e_max - e_min)%float floor_eps in
      ar_linear <- truediv numerator denominator ;;
      let ar_dB := (20 * np_log10 rt ar_linear)%float in
      ret ar_dB).

End Farfield.

(* ===================================================================== *)
(** ** Running the helpers *)
(* ===================================================================== *)

(** A table-driven stand-in for the runtime: the listed entries carry the
    binary64 value nearest to the true one, every other power is out of
    range and every other logarithm is not a number.  It serves the closed
    examples. *)
Definition table_runtime : runtime :=
  mkRuntime
    (fun x y => if (y =? 0)%float then Some 1%float
                else if (y =? 1)%float then Some x else None)
    (fun x => if (x =? 1)%float then 0%float
              else if (x =? 2)%float then 0x1.34413509f79ffp-2%float
              else if (x =? 10)%float then 1%float
              else if (x =? 1.9999999999999998e+300)%float
                   then 300.30102999566398%float
              else nan)
    (fun _ => None).

(** A project whose farfield monitor always answers with [values]. *)
Definition answering (values : list pyobj) : CST :=
  mkCST (fun _ => Returns values).

(** A project whose farfield query always fails with [err]. *)
Definition failing (err : exn) : CST :=
  mkCST (fun _ => Raises err).

(** The scalar the helpers read out of one entry of the answer, when
    [float(np.asarray(entry).item())] succeeds. *)
Definition scalar_of (rt : runtime) (entry : pyobj) : option float :=
  match (scalar <- ndarray_item entry ;; py_float rt scalar) [] with
  | (_, Ok v) => Some v
  | (_, Raise _) => None
  end.

(** The gain formula as the specification writes it,
    [10 * log10(10^(g_theta/10) + 10^(g_phi/10))], evaluated with the
    runtime's operations; [None] when a power is out of range. *)
Definition gain_formula (rt : runtime) (g_theta g_phi : float) : option float :=
  match float_pow rt 10 (g_theta / 10), float_pow rt 10 (g_phi / 10) with
  | Some theta_lin, Some phi_lin =>
      Some (10 * np_log10 rt (theta_lin + phi_lin))%float
  | _, _ => None
  end.

(** What evaluating an out-of-range power raises. *)
Definition out_of_range : exn :=
  new_exn OverflowError "(34, 'Numerical result out of range')".

(** [m] is the larger of [a] and [b]. *)
Definition float_max_of (m a b : float) : Prop :=
  (m = a \/ m = b) /\ (a <=? m)%float = true /\ (b <=? m)%float = true.

(** [m] is the smaller of [a] and [b]. *)
Definition float_min_of (m a b : float) : Prop :=
  (m = a \/ m = b) /\ (m <=? a)%float = true /\ (m <=? b)%float = true.

(** The axial-ratio formula as the specification writes it,
    [20 * log10((emax + emin) / max(emax - emin, eps))]. *)
Definition axial_ratio_formula (rt : runtime) (e_max e_min : float) : float :=
  (20 * np_log10 rt ((e_max + e_min) / py_max (e_max - e_min) floor_eps))%float.

(** The class of the exception a run ended with, if it ended with one. *)
Definition raised_class {A} (r : list query * result A) : option exc_class :=
  match snd r with
  | Raise e => Some (exn_class e)
  | Ok _ => None
  end.

(** The queries a run sent to the collaborator. *)
Definition queries_sent {A} (r : list query * result A) : list query := fst r.

(** The value or exception a run ended with. *)
Definition outcome_of {A} (r : list query * result A) : result A := snd r.

(** The pair [(emax, emin)] the axial-ratio helper selects. *)
Definition select_extremes (right left : float) : float * float :=
  if float_ge right left then (right, left) else (left, right).

(** The exception the two [except] clauses end with for [err]. *)
Definition raised_by_handler (err : exn) : exn :=
  match snd (farfield_handler err []) with
  | Raise e => e
  | Ok _ => err
  end.

(** What the truth test of an ndarray without entries raises. *)
Definition empty_array_error : exn :=
  new_exn ValueError
    "The truth value of an empty array is ambiguous. Use `array.size > 0` to check that an array is not empty.".

(** What the truth test of an ndarray with several entries raises. *)
Definition ambiguous_array_error : exn :=
  new_exn ValueError
    "The truth value of an array with more than one element is ambiguous. Use a.any() or a.all()".

(** What [len] raises on an ndarray without axes. *)
Definition unsized_error : exn :=
  new_exn TypeError "len() of unsized object".

(** A project whose farfield monitor always answers with one ndarray. *)
Definition answering_array (array : pyobj) : CST :=
  mkCST (fun _ => ReturnsArray array).

(** [isinstance(x, (list, tuple, np.ndarray))]. *)
Definition is_sequence (x : pyobj) : bool :=
  match x with PyList _ => true | _ => false end.

(** A COM failure that carries no exception information, as pywin32
    builds it when the automation link itself is down. *)
Definition rpc_unavailable : exn :=
  mkExn com_error
        "(-2147023174, 'The RPC server is unavailable.', None, None)"
        AttrNone.

(** A COM failure raised by the application, with its description. *)
Definition no_monitor : exn :=
  mkExn com_error
        "(-2147352567, 'Exception occurred.', (0, 'CST', 'No farfield monitor', None, 0, -2147467259), None)"
        (AttrTuple (Some "No farfield monitor"%string)).

(** Zero of either sign on the specification side of binary64. *)
Definition SFis_zero (x : spec_float) : bool :=
  match x with S754_zero _ => true | _ => false end.

(* ===================================================================== *)
(** ** assemblies/feed.py *)
(* ===================================================================== *)

(** One call on the builder objects of the project wrapper, with the
    keyword arguments [create_coax_and_port] passes. *)
Inductive build_call : Type :=
| addMaterialFromLib (name : string)
| ensureExistence (component : string)
| addCylinder (xMin yMin zMin zMax extRad intRad : float)
              (name component material orientation : string)
| subtract (object1 object2 : string)
| addWaveguidePort (xMin xMax yMin yMax zMin zMax : float)
                   (orientation : string) (nModes : Z).

(** The builder side of the project wrapper ([Build.Material],
    [Build.Component], [Build.Shape], [Build.Boolean], [Solver.Port]); these
    classes are not part of the sources at hand.  A call returns (its value
    is dropped by the caller) or raises, and the answer may depend on the
    calls made before. *)
Record Builder : Type := mkBuilder {
  perform : list build_call -> build_call -> option exn
}.

(** Computations over the log of the builder calls made so far. *)
Definition B (A : Type) : Type :=
  list build_call -> list build_call * result A.

(** One builder call: it is logged, then it returns or raises. *)
Definition call (b : Builder) (c : build_call) : B unit :=
  fun log =>
    match perform b log c with
    | None => (log ++ [c], Ok tt)
    | Some e => (log ++ [c], Raise e)
    end.

(** Statement sequencing. *)
Definition and_then {A} (c : B unit) (k : B A) : B A :=
  fun log =>
    match c log with
    | (log', Ok _) => k log'
    | (log', Raise e) => (log', Raise e)
    end.

Notation "c >> k" := (and_then c k)
  (at level 62, right associativity) : py_scope.

(** [pass]. *)
Definition skip : B unit := fun log => (log, Ok tt).

(** The keyword arguments of [create_coax_and_port]. *)
Record feed_args : Type := mkFeedArgs {
  xfeed : float;
  yfeed : float;
  feed_z_bot : float;
  feed_z_top : float;
  inner_conn_rad : float;
  consub_outer_rad : float;
  outer_shield_outer_rad : float;
  coax_component : string;
  inner_name : string;
  consub_name : string;
  outer_name : string;
  inner_mat : string;
  consub_mat : string;
  outer_mat : string;
  make_ground_cut : bool;
  ground_component : string;
  nModes : Z;
  orientation : string
}.

(** The default values of the signature. *)
Definition feed_defaults : feed_args :=
  mkFeedArgs 0 0 (-3) 0.6 0.65 2.05 3
             "Coax" "InnerConn" "ConSubstrate" "OuterShield"
             "Copper (annealed)" "PTFE (lossy)" "Copper (annealed)"
             true "component1:Groundplane" 1 "zmin".

Definition create_coax_and_port (myCST : option Builder) (a : feed_args)
  : B unit :=
  match myCST with
  | None =>
      fun log =>
        (log, Raise (new_exn AttributeError
                       "'NoneType' object has no attribute 'Build'"))
  | Some b =>
      call b (addMaterialFromLib (inner_mat a)) >>
      call b (addMaterialFromLib (consub_mat a)) >>
      call b (addMaterialFromLib (outer_mat a)) >>
      call b (ensureExistence (coax_component a)) >>
      call b (addCylinder (xfeed a) (yfeed a) (feed_z_bot a) (feed_z_top a)
                          (inner_conn_rad a) 0
                          (inner_name a) (coax_component a) (inner_mat a) "z") >>
      call b (addCylinder (xfeed a) (yfeed a) (feed_z_bot a) 0
                          (consub_outer_rad a) (inner_conn_rad a)
                          (consub_name a) (coax_component a) (consub_mat a) "z") >>
      call b (addCylinder (xfeed a) (yfeed a) (feed_z_bot a) 0
                          (outer_shield_outer_rad a) (consub_outer_rad a)
                          (outer_name a) (coax_component a) (outer_mat a) "z") >>
      (if make_ground_cut a then
         let cut_name := "CoaxCut"%string in
         call b (addCylinder (xfeed a) (yfeed a) (feed_z_bot a) (feed_z_top a)
                             (outer_shield_outer_rad a) 0
                             cut_name (coax_component a) "Vacuum" "z") >>
         call b (subtract (ground_component a)
                          (coax_component a ++ ":" ++ cut_name)%string)
       else skip) >>
      call b (addWaveguidePort
                (xfeed a - outer_shield_outer_rad a)
                (xfeed a + outer_shield_outer_rad a)
                (yfeed a - outer_shield_outer_rad a)
                (yfeed a + outer_shield_outer_rad a)
                (feed_z_bot a) (feed_z_bot a)
                (orientation a) (nModes a))
  end.

(** A builder on which every call returns. *)
Definition obliging : Builder := mkBuilder (fun _ _ => None).

(** A builder that refuses, with [err], the calls [refuses] selects. *)
Definition refusing (refuses : build_call -> bool) (err : exn) : Builder :=
  mkBuilder (fun _ c => if refuses c then Some err else None).

(** The calls [create_coax_and_port] makes when none of them raises. *)
Definition feed_script (a : feed_args) : list build_call :=
  fst (create_coax_and_port (Some obliging) a []).

(** Making the calls of a list in order, up to the first that raises. *)
Fixpoint perform_all (b : Builder) (calls : list build_call) : B unit :=
  match calls with
  | [] => skip
  | c :: rest => call b c >> perform_all b rest
  end.

Definition is_addCylinder (c : build_call) : bool :=
  match c with addCylinder _ _ _ _ _ _ _ _ _ _ => true | _ => false end.

Definition is_subtract (c : build_call) : bool :=
  match c with subtract _ _ => true | _ => false end.

Definition is_addWaveguidePort (c : build_call) : bool :=
  match c with addWaveguidePort _ _ _ _ _ _ _ _ => true | _ => false end.

Definition is_addMaterialFromLib (c : build_call) : bool :=
  match c with addMaterialFromLib _ => true | _ => false end.

(** [l1] is an initial segment of [l2]. *)
Definition prefix_of {A} (l1 l2 : list A) : Prop :=
  exists rest, l2 = l1 ++ rest.

(** Wrapping an entry [depth] times in a sequence of length one, as an
    array of shape [(1, ..., 1)] does. *)
Fixpoint wrapped (depth : nat) (entry : pyobj) : pyobj :=
  match depth with
  | O => entry
  | S d => PyList [wrapped d entry]
  end.

(* ===================================================================== *)
(** ** Concrete runs *)
(* ===================================================================== *)

Example scalar_of_float :
  scalar_of table_runtime (PyFloat 3) = Some 3%float.
Proof. reflexivity. Qed.

Example scalar_of_array_1x1 :
  scalar_of table_runtime (PyList [PyList [PyFloat 3]]) = Some 3%float.
Proof. reflexivity. Qed.

Example scalar_of_int :
  scalar_of table_runtime (PyInt 5) = Some 5%float.
Proof. reflexivity. Qed.

Example scalar_of_huge_int :
  scalar_of table_runtime (PyInt (10 ^ 400)) = None.
Proof. vm_compute. reflexivity. Qed.

Example scalar_of_none :
  scalar_of table_runtime PyNone = None.
Proof. reflexivity. Qed.

Example scalar_of_two_entries :
  scalar_of table_runtime (PyList [PyFloat 1; PyFloat 2]) = None.
Proof. reflexivity. Qed.

Section Running.

Variable rt : runtime.

Lemma ndarray_item_within_log (dims : nat) (x : pyobj) (log : list query) :
  ndarray_item_within dims x log
  = (log, snd (ndarray_item_within dims x [])).
Proof.
  revert dims x log. fix IH 2.
  intros dims [ | b | n | v | s | items] log; try reflexivity.
  destruct dims as [|d]; [reflexivity|].
  destruct items as [|y [|z rest]]; try reflexivity.
  simpl. apply IH.
Qed.

Lemma ndarray_item_log (x : pyobj) (log : list query) :
  ndarray_item x log = (log, snd (ndarray_item x [])).
Proof. apply ndarray_item_within_log. Qed.

Lemma float_of_int_log (n : Z) (log : list query) :
  float_of_int n log = (log, snd (float_of_int n [])).
Proof.
  unfold float_of_int.
  destruct (is_infinity _); reflexivity.
Qed.

Lemma py_float_log (x : pyobj) (log : list query) :
  py_float rt x log = (log, snd (py_float rt x [])).
Proof.
  destruct x; simpl; try reflexivity.
  - apply float_of_int_log.
  - destruct (float_of_str rt s); reflexivity.
Qed.

(** Reading an entry touches no log and is decided by [scalar_of]. *)
Lemma extract_entry (entry : pyobj) (log : list query) :
  (scalar <- ndarray_item entry ;; py_float rt scalar) log =
  (log, match scalar_of rt entry with
        | Some v => Ok v
        | None =>
            match snd ((scalar <- ndarray_item entry ;; py_float rt scalar) [])
            with
            | Raise e => Raise e
            | Ok v => Ok v
            end
        end).
Proof.
  unfold scalar_of, bind.
  rewrite (ndarray_item_log entry log).
  destruct (ndarray_item entry []) as [l0 [scalar|e]] eqn:E0; simpl.
  - rewrite (py_float_log scalar log), (py_float_log scalar l0).
    destruct (snd (py_float rt scalar [])); reflexivity.
  - reflexivity.
Qed.

Lemma extract_some (results : list pyobj) (i : nat) (entry : pyobj)
      (v : float) (log : list query) :
  nth_error results i = Some entry ->
  scalar_of rt entry = Some v ->
  extract rt (ListAnswer results) i log = (log, Ok v).
Proof.
  intros Hn Hs. unfold extract, subscript.
  rewrite Hn. unfold bind at 1. unfold ret at 1.
  rewrite extract_entry, Hs. reflexivity.
Qed.

Lemma extract_none (results : list pyobj) (i : nat) (entry : pyobj)
      (log : list query) :
  nth_error results i = Some entry ->
  scalar_of rt entry = None ->
  exists e, extract rt (ListAnswer results) i log = (log, Raise e).
Proof.
  intros Hn Hs. unfold extract, subscript.
  rewrite Hn. unfold bind at 1. unfold ret at 1.
  rewrite extract_entry, Hs.
  unfold scalar_of in Hs.
  destruct ((scalar <- ndarray_item entry ;; py_float rt scalar) [])
    as [l0 [v|e]]; [discriminate|].
  exists e. reflexivity.
Qed.

End Running.

(* ===================================================================== *)
(** ** Facts of binary64 arithmetic *)
(* ===================================================================== *)

Lemma SF64add_comm (x y : spec_float) : SF64add x y = SF64add y x.
Proof.
  unfold SF64add, SFadd.
  destruct x as [sx|sx| |sx mx ex], y as [sy|sy| |sy my ey]; try reflexivity.
  - destruct sx, sy; reflexivity.
  - destruct sx, sy; reflexivity.
  - rewrite (Z.min_comm ey ex). f_equal. apply Z.add_comm.
Qed.

Lemma float_add_comm (x y : float) : (x + y = y + x)%float.
Proof.
  apply Prim2SF_inj. rewrite !add_spec. apply SF64add_comm.
Qed.

Lemma float_eqb_zero (d : float) :
  (d =? 0)%float = true -> d = 0%float \/ d = (-0)%float.
Proof.
  rewrite eqb_spec. intros H.
  rewrite <- (SF2Prim_Prim2SF d).
  change (Prim2SF 0) with (S754_zero false) in H.
  destruct (Prim2SF d) as [s|s| |s m e]; try discriminate.
  - destruct s; [right | left]; reflexivity.
  - destruct s; discriminate.
  - destruct s; discriminate.
Qed.

(** The floored denominator is never zero, so the division that follows
    cannot raise. *)
Lemma py_max_floor_nonzero (d : float) :
  (py_max d floor_eps =? 0)%float = false.
Proof.
  unfold py_max. destruct (d <? floor_eps)%float eqn:L.
  - reflexivity.
  - destruct (d =? 0)%float eqn:Z; [|reflexivity].
    apply float_eqb_zero in Z.
    destruct Z; subst d; vm_compute in L; discriminate.
Qed.

Lemma SFcompare_antisym (x y : spec_float) :
  SFcompare y x = option_map CompOpp (SFcompare x y).
Proof.
  destruct x as [sx|sx| |sx mx ex], y as [sy|sy| |sy my ey]; simpl;
    try reflexivity;
    try (destruct sx; reflexivity); try (destruct sy; reflexivity);
    try (destruct sx, sy; reflexivity).
  destruct sx, sy; try reflexivity;
    rewrite (Z.compare_antisym ex ey);
    destruct (ex ?= ey)%Z; simpl; try reflexivity;
    rewrite (Pos.compare_cont_antisym mx my Eq); reflexivity.
Qed.

Lemma SFcompare_Eq (x y : spec_float) :
  SFcompare x y = Some Eq ->
  x = y \/ (SFis_zero x = true /\ SFis_zero y = true).
Proof.
  destruct x as [sx|sx| |sx mx ex], y as [sy|sy| |sy my ey]; simpl;
    try discriminate;
    try (destruct sx; discriminate); try (destruct sy; discriminate).
  - intros _. right; split; reflexivity.
  - destruct sx, sy; try discriminate; intros _; left; reflexivity.
  - destruct sx, sy; try discriminate;
      (destruct (ex ?= ey)%Z eqn:E; try discriminate);
      apply Z.compare_eq in E; intros H; left;
      assert (Hm : Pos.compare_cont Eq mx my = Eq)
        by (destruct (Pos.compare_cont Eq mx my); simpl in H; congruence);
      apply Pos.compare_eq in Hm; congruence.
Qed.

Lemma SFis_zero_float (x : float) :
  SFis_zero (Prim2SF x) = true -> x = 0%float \/ x = (-0)%float.
Proof.
  intros H. rewrite <- (SF2Prim_Prim2SF x).
  destruct (Prim2SF x) as [s|s| |s m e]; try discriminate.
  destruct s; [right | left]; reflexivity.
Qed.

(** Two floats that are each below the other are the same float, or are
    both zeros. *)
Lemma float_leb_antisym (x y : float) :
  (x <=? y)%float = true -> (y <=? x)%float = true ->
  x = y \/ ((x = 0 \/ x = -0) /\ (y = 0 \/ y = -0))%float.
Proof.
  rewrite !leb_spec. unfold SFleb.
  rewrite (SFcompare_antisym (Prim2SF x) (Prim2SF y)).
  destruct (SFcompare (Prim2SF x) (Prim2SF y)) as [[ | | ]|] eqn:E; simpl;
    try discriminate.
  intros _ _. apply SFcompare_Eq in E. destruct E as [E|[Zx Zy]].
  - left. apply Prim2SF_inj. exact E.
  - right. split; apply SFis_zero_float; assumption.
Qed.

Lemma SFcompare_None (x y : spec_float) :
  SFcompare x y = None -> x = S754_nan \/ y = S754_nan.
Proof.
  destruct x as [sx|sx| |sx mx ex], y as [sy|sy| |sy my ey]; simpl;
    try discriminate; auto.
Qed.

(** Two floats neither of which is below the other: one is not a number. *)
Lemma float_leb_incomparable (x y : float) :
  (x <=? y)%float = false -> (y <=? x)%float = false ->
  x = nan \/ y = nan.
Proof.
  rewrite !leb_spec. unfold SFleb.
  rewrite (SFcompare_antisym (Prim2SF x) (Prim2SF y)).
  destruct (SFcompare (Prim2SF x) (Prim2SF y)) as [[ | | ]|] eqn:E; simpl;
    try discriminate.
  intros _ _. apply SFcompare_None in E.
  destruct E as [E|E]; [left|right];
    apply Prim2SF_inj; rewrite E; reflexivity.
Qed.

Lemma float_sub_nan_l (y : float) : (nan - y)%float = nan.
Proof.
  apply Prim2SF_inj. rewrite sub_spec. reflexivity.
Qed.

Lemma float_sub_nan_r (x : float) : (x - nan)%float = nan.
Proof.
  apply Prim2SF_inj. rewrite sub_spec.
  change (Prim2SF nan) with S754_nan.
  destruct (Prim2SF x); reflexivity.
Qed.

Lemma float_leb_refl_or_nan (x : float) :
  (x <=? x)%float = true \/ x = nan.
Proof.
  destruct (x <=? x)%float eqn:E; [left; reflexivity|right].
  destruct (float_leb_incomparable x x E E); assumption.
Qed.

Lemma float_ltb_leb (x y : float) :
  (x <? y)%float = true -> (x <=? y)%float = true.
Proof.
  rewrite ltb_spec, leb_spec. unfold SFltb, SFleb.
  destruct (SFcompare (Prim2SF x) (Prim2SF y)) as [[ | | ]|];
    intros H; try discriminate H; reflexivity.
Qed.

Lemma float_ltb_false_leb (x y : float) :
  (x <? y)%float = false -> x <> nan -> y <> nan ->
  (y <=? x)%float = true.
Proof.
  rewrite ltb_spec, leb_spec. unfold SFltb, SFleb.
  rewrite (SFcompare_antisym (Prim2SF x) (Prim2SF y)).
  destruct (SFcompare (Prim2SF x) (Prim2SF y)) as [[ | | ]|] eqn:E; simpl;
    intros H Hx Hy; try discriminate H; try reflexivity.
  apply SFcompare_None in E.
  destruct E as [E|E]; [destruct Hx | destruct Hy];
    apply Prim2SF_inj; rewrite E; reflexivity.
Qed.

Lemma float_ltb_nan_l (y : float) : (nan <? y)%float = false.
Proof.
  rewrite ltb_spec. reflexivity.
Qed.

Lemma floor_eps_is_number : floor_eps <> nan.
Proof.
  intros H. assert (E : (floor_eps =? floor_eps)%float = true) by reflexivity.
  rewrite H in E. discriminate E.
Qed.

(** The built-in [max] on two floats: the larger one when both are
    numbers, and the first argument when that one is not a number. *)
Lemma py_max_is_max (a b : float) :
  a <> nan -> b <> nan -> float_max_of (py_max a b) a b.
Proof.
  intros Ha Hb. unfold py_max, float_max_of.
  assert (Ra : (a <=? a)%float = true)
    by (destruct (float_leb_refl_or_nan a); [assumption | contradiction]).
  assert (Rb : (b <=? b)%float = true)
    by (destruct (float_leb_refl_or_nan b); [assumption | contradiction]).
  destruct (a <? b)%float eqn:L.
  - repeat split; auto. apply float_ltb_leb. exact L.
  - repeat split; auto. apply float_ltb_false_leb; assumption.
Qed.

Lemma py_max_nan_l (b : float) : py_max nan b = nan.
Proof.
  unfold py_max. rewrite float_ltb_nan_l. reflexivity.
Qed.

(* ===================================================================== *)
(** ** The helpers after the query *)
(* ===================================================================== *)

Section Reductions.

Variable rt : runtime.

(** The validator call is an expression statement: it leaves the log and
    the control flow alone. *)
Lemma unawaited_validator (myCST : option CST) (target_freq port mode : pyobj)
      (A : Type) (k : M A) (log : list query) :
  (expr_stmt (_validate_common_inputs myCST target_freq port mode) ;; k) log
  = k log.
Proof. reflexivity. Qed.

(** A list with two entries or more passes the emptiness test. *)
Lemma empty_or_incomplete_pair (e0 e1 : pyobj) (rest : list pyobj)
      (log : list query) :
  empty_or_incomplete (ListAnswer (e0 :: e1 :: rest)) log = (log, Ok false).
Proof. reflexivity. Qed.

(** A list with fewer than two entries does not. *)
Lemma empty_or_incomplete_short (values : list pyobj) (log : list query) :
  (List.length values < 2)%nat ->
  empty_or_incomplete (ListAnswer values) log = (log, Ok true).
Proof.
  destruct values as [|a [|b rest]]; try reflexivity.
  simpl. lia.
Qed.

(** Dividing by the literal [10.0] never raises. *)
Lemma truediv_10 (x : float) (log : list query) :
  truediv x 10 log = (log, Ok (x / 10)%float).
Proof. reflexivity. Qed.

Lemma get_gain_at_freq_answer (cst : CST) (target_freq port mode : pyobj)
      (e0 e1 : pyobj) (rest : list pyobj) (g_theta g_phi : float) :
  getFarField cst (gain_query target_freq port mode)
    = Returns (e0 :: e1 :: rest) ->
  scalar_of rt e0 = Some g_theta ->
  scalar_of rt e1 = Some g_phi ->
  run (get_gain_at_freq rt (Some cst) target_freq port mode)
  = ([gain_query target_freq port mode],
     match gain_formula rt g_theta g_phi with
     | Some g => Ok g
     | None => Raise out_of_range
     end).
Proof.
  intros Hq H0 H1.
  unfold run, get_gain_at_freq, await.
  rewrite unawaited_validator.
  unfold bind at 1. unfold try_except at 1.
  unfold Results_getFarField, send. rewrite Hq. simpl app.
  cbv beta iota. unfold bind at 1.
  rewrite empty_or_incomplete_pair. cbv beta iota.
  unfold bind at 1. unfold try_except at 1.
  unfold bind at 1.
  rewrite (extract_some rt (e0 :: e1 :: rest) 0 e0 g_theta _ eq_refl H0).
  unfold bind at 1.
  rewrite (extract_some rt (e0 :: e1 :: rest) 1 e1 g_phi _ eq_refl H1).
  unfold ret at 1. cbv beta iota.
  unfold bind at 1. rewrite truediv_10.
  unfold gain_formula, pow, out_of_range.
  unfold bind at 1.
  destruct (float_pow rt 10 (g_theta / 10)) as [a|]; [|reflexivity].
  unfold ret at 1. unfold bind at 1. rewrite truediv_10.
  unfold bind at 1.
  destruct (float_pow rt 10 (g_phi / 10)) as [b|]; reflexivity.
Qed.

Lemma get_axial_ratio_at_freq_answer (cst : CST)
      (target_freq port mode : pyobj)
      (e0 e1 : pyobj) (rest : list pyobj) (right left : float) :
  getFarField cst (efield_query target_freq port mode)
    = Returns (e0 :: e1 :: rest) ->
  scalar_of rt e0 = Some right ->
  scalar_of rt e1 = Some left ->
  run (get_axial_ratio_at_freq rt (Some cst) target_freq port mode)
  = ([efield_query target_freq port mode],
     Ok (axial_ratio_formula rt (fst (select_extremes right left))
                                (snd (select_extremes right left)))).
Proof.
  intros Hq H0 H1.
  unfold run, get_axial_ratio_at_freq, await.
  rewrite unawaited_validator.
  unfold bind at 1. unfold try_except at 1.
  unfold Results_getFarField, send. rewrite Hq. simpl app.
  cbv beta iota. unfold bind at 1.
  rewrite empty_or_incomplete_pair. cbv beta iota.
  unfold bind at 1. unfold try_except at 1.
  unfold bind at 1.
  rewrite (extract_some rt (e0 :: e1 :: rest) 0 e0 right _ eq_refl H0).
  unfold bind at 1.
  rewrite (extract_some rt (e0 :: e1 :: rest) 1 e1 left _ eq_refl H1).
  unfold ret at 1. cbv beta iota. cbn [fst snd].
  unfold select_extremes, axial_ratio_formula.
  destruct (float_ge right left); cbn [fst snd];
    unfold bind, truediv; rewrite py_max_floor_nonzero; reflexivity.
Qed.

Lemma get_gain_at_freq_incomplete (cst : CST) (target_freq port mode : pyobj)
      (values : list pyobj) :
  getFarField cst (gain_query target_freq port mode) = Returns values ->
  (List.length values < 2)%nat ->
  run (get_gain_at_freq rt (Some cst) target_freq port mode)
  = ([gain_query target_freq port mode],
     Raise (new_exn RuntimeError incomplete_msg)).
Proof.
  intros Hq Hlen.
  unfold run, get_gain_at_freq, await.
  rewrite unawaited_validator.
  unfold bind at 1. unfold try_except at 1.
  unfold Results_getFarField, send. rewrite Hq. simpl app.
  cbv beta iota.
  destruct values as [|a [|b rest]]; try reflexivity.
  simpl in Hlen. lia.
Qed.

Lemma get_axial_ratio_at_freq_incomplete (cst : CST)
      (target_freq port mode : pyobj) (values : list pyobj) :
  getFarField cst (efield_query target_freq port mode) = Returns values ->
  (List.length values < 2)%nat ->
  run (get_axial_ratio_at_freq rt (Some cst) target_freq port mode)
  = ([efield_query target_freq port mode],
     Raise (new_exn RuntimeError incomplete_msg)).
Proof.
  intros Hq Hlen.
  unfold run, get_axial_ratio_at_freq, await.
  rewrite unawaited_validator.
  unfold bind at 1. unfold try_except at 1.
  unfold Results_getFarField, send. rewrite Hq. simpl app.
  cbv beta iota.
  destruct values as [|a [|b rest]]; try reflexivity.
  simpl in Hlen. lia.
Qed.

(** The [except] clauses always end in an exception and send nothing. *)
Lemma farfield_handler_raises (err : exn) (log : list query) :
  farfield_handler err log = (log, Raise (raised_by_handler err)).
Proof.
  unfold raised_by_handler, farfield_handler, details_2.
  destruct (exc_class_eqb (exn_class err) com_error).
  - destruct (exn_excepinfo err) as [ | |[text|] |raised message]; reflexivity.
  - destruct (is_Exception (exn_class err)); reflexivity.
Qed.

Lemma get_gain_at_freq_failure (cst : CST) (target_freq port mode : pyobj)
      (err : exn) :
  getFarField cst (gain_query target_freq port mode) = Raises err ->
  run (get_gain_at_freq rt (Some cst) target_freq port mode)
  = ([gain_query target_freq port mode], Raise (raised_by_handler err)).
Proof.
  intros Hq.
  unfold run, get_gain_at_freq, await.
  rewrite unawaited_validator.
  unfold bind at 1. unfold try_except at 1.
  unfold Results_getFarField, send. rewrite Hq. simpl app.
  cbv beta iota. rewrite farfield_handler_raises. reflexivity.
Qed.

Lemma get_axial_ratio_at_freq_failure (cst : CST)
      (target_freq port mode : pyobj) (err : exn) :
  getFarField cst (efield_query target_freq port mode) = Raises err ->
  run (get_axial_ratio_at_freq rt (Some cst) target_freq port mode)
  = ([efield_query target_freq port mode], Raise (raised_by_handler err)).
Proof.
  intros Hq.
  unfold run, get_axial_ratio_at_freq, await.
  rewrite unawaited_validator.
  unfold bind at 1. unfold try_except at 1.
  unfold Results_getFarField, send. rewrite Hq. simpl app.
  cbv beta iota. rewrite farfield_handler_raises. reflexivity.
Qed.

Lemma get_gain_at_freq_unparsable (cst : CST) (target_freq port mode : pyobj)
      (e0 e1 : pyobj) (rest : list pyobj) :
  getFarField cst (gain_query target_freq port mode)
    = Returns (e0 :: e1 :: rest) ->
  scalar_of rt e0 = None \/ scalar_of rt e1 = None ->
  run (get_gain_at_freq rt (Some cst) target_freq port mode)
  = ([gain_query target_freq port mode],
     Raise (new_exn RuntimeError gain_parse_msg)).
Proof.
  intros Hq Hbad.
  unfold run, get_gain_at_freq, await.
  rewrite unawaited_validator.
  unfold bind at 1. unfold try_except at 1.
  unfold Results_getFarField, send. rewrite Hq. simpl app.
  cbv beta iota. unfold bind at 1.
  rewrite empty_or_incomplete_pair. cbv beta iota.
  unfold bind at 1. unfold try_except at 1.
  unfold bind at 1.
  destruct (scalar_of rt e0) as [v0|] eqn:H0.
  - destruct Hbad as [Hbad|H1]; [discriminate|].
    rewrite (extract_some rt (e0 :: e1 :: rest) 0 e0 v0 _ eq_refl H0).
    unfold bind at 1.
    destruct (extract_none rt (e0 :: e1 :: rest) 1 e1
                [gain_query target_freq port mode] eq_refl H1) as [e He].
    rewrite He. reflexivity.
  - destruct (extract_none rt (e0 :: e1 :: rest) 0 e0
                [gain_query target_freq port mode] eq_refl H0) as [e He].
    rewrite He. reflexivity.
Qed.

Lemma get_axial_ratio_at_freq_unparsable (cst : CST)
      (target_freq port mode : pyobj)
      (e0 e1 : pyobj) (rest : list pyobj) :
  getFarField cst (efield_query target_freq port mode)
    = Returns (e0 :: e1 :: rest) ->
  scalar_of rt e0 = None \/ scalar_of rt e1 = None ->
  run (get_axial_ratio_at_freq rt (Some cst) target_freq port mode)
  = ([efield_query target_freq port mode],
     Raise (new_exn RuntimeError axial_parse_msg)).
Proof.
  intros Hq Hbad.
  unfold run, get_axial_ratio_at_freq, await.
  rewrite unawaited_validator.
  unfold bind at 1. unfold try_except at 1.
  unfold Results_getFarField, send. rewrite Hq. simpl app.
  cbv beta iota. unfold bind at 1.
  rewrite empty_or_incomplete_pair. cbv beta iota.
  unfold bind at 1. unfold try_except at 1.
  unfold bind at 1.
  destruct (scalar_of rt e0) as [v0|] eqn:H0.
  - destruct Hbad as [Hbad|H1]; [discriminate|].
    rewrite (extract_some rt (e0 :: e1 :: rest) 0 e0 v0 _ eq_refl H0).
    unfold bind at 1.
    destruct (extract_none rt (e0 :: e1 :: rest) 1 e1
                [efield_query target_freq port mode] eq_refl H1) as [e He].
    rewrite He. reflexivity.
  - destruct (extract_none rt (e0 :: e1 :: rest) 0 e0
                [efield_query target_freq port mode] eq_refl H0) as [e He].
    rewrite He. reflexivity.
Qed.

(** Without a project object the attribute lookup fails inside the
    [try] block, before anything is sent. *)
Lemma get_gain_at_freq_no_project (target_freq port mode : pyobj) :
  run (get_gain_at_freq rt None target_freq port mode)
  = ([], Raise (new_exn RuntimeError
       "ERROR: Unexpected failure retrieving farfield results. 'NoneType' object has no attribute 'Results'")).
Proof. reflexivity. Qed.

(** Entering a helper on a project object whose collaborator's behaviour
    [Hq] gives: what is left is the part after the query. *)
Ltac after_query Hq :=
  unfold run, get_gain_at_freq, get_axial_ratio_at_freq, await;
  rewrite unawaited_validator;
  unfold bind at 1; unfold try_except at 1;
  unfold Results_getFarField, send; rewrite Hq; simpl app;
  cbv beta iota.

(** An ndarray answer without entries fails its truth test. *)
Lemma get_gain_at_freq_empty_array (cst : CST)
      (target_freq port mode array : pyobj) :
  getFarField cst (gain_query target_freq port mode) = ReturnsArray array ->
  leaves array = [] ->
  run (get_gain_at_freq rt (Some cst) target_freq port mode)
  = ([gain_query target_freq port mode], Raise empty_array_error).
Proof.
  intros Hq Hl. after_query Hq.
  unfold bind, empty_or_incomplete, truth_value. rewrite Hl. reflexivity.
Qed.

Lemma get_axial_ratio_at_freq_empty_array (cst : CST)
      (target_freq port mode array : pyobj) :
  getFarField cst (efield_query target_freq port mode) = ReturnsArray array ->
  leaves array = [] ->
  run (get_axial_ratio_at_freq rt (Some cst) target_freq port mode)
  = ([efield_query target_freq port mode], Raise empty_array_error).
Proof.
  intros Hq Hl. after_query Hq.
  unfold bind, empty_or_incomplete, truth_value. rewrite Hl. reflexivity.
Qed.

(** An ndarray answer with two entries or more fails its truth test. *)
Lemma get_gain_at_freq_large_array (cst : CST)
      (target_freq port mode array x y : pyobj) (more : list pyobj) :
  getFarField cst (gain_query target_freq port mode) = ReturnsArray array ->
  leaves array = x :: y :: more ->
  run (get_gain_at_freq rt (Some cst) target_freq port mode)
  = ([gain_query target_freq port mode], Raise ambiguous_array_error).
Proof.
  intros Hq Hl. after_query Hq.
  unfold bind, empty_or_incomplete, truth_value. rewrite Hl. reflexivity.
Qed.

Lemma get_axial_ratio_at_freq_large_array (cst : CST)
      (target_freq port mode array x y : pyobj) (more : list pyobj) :
  getFarField cst (efield_query target_freq port mode) = ReturnsArray array ->
  leaves array = x :: y :: more ->
  run (get_axial_ratio_at_freq rt (Some cst) target_freq port mode)
  = ([efield_query target_freq port mode], Raise ambiguous_array_error).
Proof.
  intros Hq Hl. after_query Hq.
  unfold bind, empty_or_incomplete, truth_value. rewrite Hl. reflexivity.
Qed.

(** An ndarray answer with one entry: a false entry, or a first axis
    shorter than two, is incomplete; an array without axes has no
    length; anything longer is read like the list of its rows. *)
Lemma get_gain_at_freq_single_array (cst : CST)
      (target_freq port mode array x : pyobj) :
  getFarField cst (gain_query target_freq port mode) = ReturnsArray array ->
  leaves array = [x] ->
  run (get_gain_at_freq rt (Some cst) target_freq port mode)
  = if py_truth x then
      match array with
      | PyList (r0 :: r1 :: rows) =>
          run (get_gain_at_freq rt (Some (answering (r0 :: r1 :: rows)))
                 target_freq port mode)
      | PyList _ =>
          ([gain_query target_freq port mode],
           Raise (new_exn RuntimeError incomplete_msg))
      | _ => ([gain_query target_freq port mode], Raise unsized_error)
      end
    else ([gain_query target_freq port mode],
          Raise (new_exn RuntimeError incomplete_msg)).
Proof.
  intros Hq Hl. after_query Hq.
  unfold bind at 1. unfold empty_or_incomplete at 1.
  unfold bind at 1. unfold truth_value. rewrite Hl.
  unfold ret at 1. cbv beta iota.
  destruct (py_truth x); [|reflexivity]. cbv beta iota. unfold negb.
  destruct array as [ | b | n | v | s | items]; try reflexivity.
  destruct items as [|r0 [|r1 rows]]; try reflexivity.
Qed.

Lemma get_axial_ratio_at_freq_single_array (cst : CST)
      (target_freq port mode array x : pyobj) :
  getFarField cst (efield_query target_freq port mode) = ReturnsArray array ->
  leaves array = [x] ->
  run (get_axial_ratio_at_freq rt (Some cst) target_freq port mode)
  = if py_truth x then
      match array with
      | PyList (r0 :: r1 :: rows) =>
          run (get_axial_ratio_at_freq rt
                 (Some (answering (r0 :: r1 :: rows)))
                 target_freq port mode)
      | PyList _ =>
          ([efield_query target_freq port mode],
           Raise (new_exn RuntimeError incomplete_msg))
      | _ => ([efield_query target_freq port mode], Raise unsized_error)
      end
    else ([efield_query target_freq port mode],
          Raise (new_exn RuntimeError incomplete_msg)).
Proof.
  intros Hq Hl. after_query Hq.
  unfold bind at 1. unfold empty_or_incomplete at 1.
  unfold bind at 1. unfold truth_value. rewrite Hl.
  unfold ret at 1. cbv beta iota.
  destruct (py_truth x); [|reflexivity]. cbv beta iota. unfold negb.
  destruct array as [ | b | n | v | s | items]; try reflexivity.
  destruct items as [|r0 [|r1 rows]]; try reflexivity.
Qed.

End Reductions.

(* ===================================================================== *)
(** ** The validator, when it is awaited *)
(* ===================================================================== *)

Lemma validator_rejects_nonreal_freq (cst : CST) (target_freq port mode : pyobj) :
  isinstance_float_or_int target_freq = false ->
  run (_validate_common_inputs (Some cst) target_freq port mode)
  = ([], Raise (new_exn TypeError "ERROR: target_freq must be float or int.")).
Proof.
  intros H. unfold run, _validate_common_inputs, await. rewrite H. reflexivity.
Qed.

Lemma validator_rejects_low_port (cst : CST) (target_freq port mode : pyobj)
      (n : Z) :
  isinstance_float_or_int target_freq = true ->
  as_int port = Some n -> (n < 1)%Z ->
  run (_validate_common_inputs (Some cst) target_freq port mode)
  = ([], Raise (new_exn ValueError "ERROR: port must be an integer >= 1.")).
Proof.
  intros Hf Hp Hn. unfold run, _validate_common_inputs, await.
  unfold isinstance_int, int_lt. rewrite Hf, Hp. simpl.
  destruct (Z.ltb_spec n 1); [reflexivity | lia].
Qed.

Lemma validator_rejects_negative_mode (cst : CST)
      (target_freq port mode : pyobj) (n k : Z) :
  isinstance_float_or_int target_freq = true ->
  as_int port = Some n -> (1 <= n)%Z ->
  as_int mode = Some k -> (k < 0)%Z ->
  run (_validate_common_inputs (Some cst) target_freq port mode)
  = ([], Raise (new_exn ValueError "ERROR: mode must be an integer >= 0.")).
Proof.
  intros Hf Hp Hn Hm Hk. unfold run, _validate_common_inputs, await.
  unfold isinstance_int, int_lt. rewrite Hf, Hp, Hm. simpl.
  destruct (Z.ltb_spec n 1); [lia|].
  destruct (Z.ltb_spec k 0); [reflexivity | lia].
Qed.

Lemma validator_accepts (cst : CST) (target_freq port mode : pyobj)
      (n k : Z) :
  isinstance_float_or_int target_freq = true ->
  as_int port = Some n -> (1 <= n)%Z ->
  as_int mode = Some k -> (0 <= k)%Z ->
  run (_validate_common_inputs (Some cst) target_freq port mode)
  = ([], Ok tt).
Proof.
  intros Hf Hp Hn Hm Hk. unfold run, _validate_common_inputs, await.
  unfold isinstance_int, int_lt. rewrite Hf, Hp, Hm. simpl.
  destruct (Z.ltb_spec n 1); [lia|].
  destruct (Z.ltb_spec k 0); [lia | reflexivity].
Qed.

(** How a run of each helper on a list answer ends, case by case. *)
Lemma get_gain_at_freq_on_list (rt : runtime) (cst : CST)
      (target_freq port mode : pyobj) (values : list pyobj) :
  getFarField cst (gain_query target_freq port mode) = Returns values ->
  run (get_gain_at_freq rt (Some cst) target_freq port mode)
  = ([gain_query target_freq port mode],
     match values with
     | e0 :: e1 :: _ =>
         match scalar_of rt e0, scalar_of rt e1 with
         | Some g_theta, Some g_phi =>
             match gain_formula rt g_theta g_phi with
             | Some gain_dB => Ok gain_dB
             | None => Raise out_of_range
             end
         | _, _ => Raise (new_exn RuntimeError gain_parse_msg)
         end
     | _ => Raise (new_exn RuntimeError incomplete_msg)
     end).
Proof.
  intros Hq.
  destruct values as [|e0 [|e1 rest]].
  - rewrite (get_gain_at_freq_incomplete rt cst _ _ _ [] Hq); simpl; auto.
  - rewrite (get_gain_at_freq_incomplete rt cst _ _ _ [e0] Hq); simpl; auto.
  - destruct (scalar_of rt e0) as [v0|] eqn:H0;
      [destruct (scalar_of rt e1) as [v1|] eqn:H1|].
    + rewrite (get_gain_at_freq_answer rt cst _ _ _ e0 e1 rest v0 v1 Hq H0 H1).
      reflexivity.
    + rewrite (get_gain_at_freq_unparsable rt cst _ _ _ e0 e1 rest Hq
                 (or_intror H1)).
      reflexivity.
    + rewrite (get_gain_at_freq_unparsable rt cst _ _ _ e0 e1 rest Hq
                 (or_introl H0)).
      reflexivity.
Qed.

Lemma get_axial_ratio_at_freq_on_list (rt : runtime) (cst : CST)
      (target_freq port mode : pyobj) (values : list pyobj) :
  getFarField cst (efield_query target_freq port mode) = Returns values ->
  run (get_axial_ratio_at_freq rt (Some cst) target_freq port mode)
  = ([efield_query target_freq port mode],
     match values with
     | e0 :: e1 :: _ =>
         match scalar_of rt e0, scalar_of rt e1 with
         | Some e_right, Some e_left =>
             Ok (axial_ratio_formula rt
                   (fst (select_extremes e_right e_left))
                   (snd (select_extremes e_right e_left)))
         | _, _ => Raise (new_exn RuntimeError axial_parse_msg)
         end
     | _ => Raise (new_exn RuntimeError incomplete_msg)
     end).
Proof.
  intros Hq.
  destruct values as [|e0 [|e1 rest]].
  - rewrite (get_axial_ratio_at_freq_incomplete rt cst _ _ _ [] Hq);
      simpl; auto.
  - rewrite (get_axial_ratio_at_freq_incomplete rt cst _ _ _ [e0] Hq);
      simpl; auto.
  - destruct (scalar_of rt e0) as [v0|] eqn:H0;
      [destruct (scalar_of rt e1) as [v1|] eqn:H1|].
    + rewrite (get_axial_ratio_at_freq_answer rt cst _ _ _ e0 e1 rest v0 v1
                 Hq H0 H1).
      reflexivity.
    + rewrite (get_axial_ratio_at_freq_unparsable rt cst _ _ _ e0 e1 rest Hq
                 (or_intror H1)).
      reflexivity.
    + rewrite (get_axial_ratio_at_freq_unparsable rt cst _ _ _ e0 e1 rest Hq
                 (or_introl H0)).
      reflexivity.
Qed.

(** Whatever the arguments are, both helpers send their query: the
    validator they build is never awaited. *)
Lemma helpers_always_query (rt : runtime) (cst : CST)
      (target_freq port mode : pyobj) :
  queries_sent (run (get_gain_at_freq rt (Some cst) target_freq port mode))
    = [gain_query target_freq port mode] /\
  queries_sent (run (get_axial_ratio_at_freq rt (Some cst) target_freq port mode))
    = [efield_query target_freq port mode].
Proof.
  split.
  - destruct (getFarField cst (gain_query target_freq port mode))
      as [values|array|err] eqn:Hq.
    + rewrite (get_gain_at_freq_on_list rt cst _ _ _ values Hq). reflexivity.
    + destruct (leaves array) as [|x [|y more]] eqn:Hl.
      * rewrite (get_gain_at_freq_empty_array rt cst _ _ _ array Hq Hl).
        reflexivity.
      * rewrite (get_gain_at_freq_single_array rt cst _ _ _ array x Hq Hl).
        destruct (py_truth x); [|reflexivity].
        destruct array as [ | b | n | v | s | items]; try reflexivity.
        destruct items as [|r0 [|r1 rows]]; try reflexivity.
        rewrite (get_gain_at_freq_on_list rt (answering (r0 :: r1 :: rows))
                   _ _ _ (r0 :: r1 :: rows) eq_refl).
        reflexivity.
      * rewrite (get_gain_at_freq_large_array rt cst _ _ _ array x y more
                   Hq Hl).
        reflexivity.
    + rewrite (get_gain_at_freq_failure rt cst _ _ _ err Hq). reflexivity.
  - destruct (getFarField cst (efield_query target_freq port mode))
      as [values|array|err] eqn:Hq.
    + rewrite (get_axial_ratio_at_freq_on_list rt cst _ _ _ values Hq).
      reflexivity.
    + destruct (leaves array) as [|x [|y more]] eqn:Hl.
      * rewrite (get_axial_ratio_at_freq_empty_array rt cst _ _ _ array Hq Hl).
        reflexivity.
      * rewrite (get_axial_ratio_at_freq_single_array rt cst _ _ _ array x
                   Hq Hl).
        destruct (py_truth x); [|reflexivity].
        destruct array as [ | b | n | v | s | items]; try reflexivity.
        destruct items as [|r0 [|r1 rows]]; try reflexivity.
        rewrite (get_axial_ratio_at_freq_on_list rt
                   (answering (r0 :: r1 :: rows))
                   _ _ _ (r0 :: r1 :: rows) eq_refl).
        reflexivity.
      * rewrite (get_axial_ratio_at_freq_large_array rt cst _ _ _ array
                   x y more Hq Hl).
        reflexivity.
    + rewrite (get_axial_ratio_at_freq_failure rt cst _ _ _ err Hq).
      reflexivity.
Qed.

(* ===================================================================== *)
(** ** The gain reduction *)
(* ===================================================================== *)

Lemma gain_formula_in_range (rt : runtime) (g_theta g_phi a b : float) :
  float_pow rt 10 (g_theta / 10) = Some a ->
  float_pow rt 10 (g_phi / 10) = Some b ->
  gain_formula rt g_theta g_phi = Some (10 * np_log10 rt (a + b))%float.
Proof.
  intros Ha Hb. unfold gain_formula. rewrite Ha, Hb. reflexivity.
Qed.

Lemma gain_formula_comm (rt : runtime) (g_theta g_phi : float) :
  gain_formula rt g_theta g_phi = gain_formula rt g_phi g_theta.
Proof.
  unfold gain_formula.
  destruct (float_pow rt 10 (g_theta / 10)) as [a|],
           (float_pow rt 10 (g_phi / 10)) as [b|]; try reflexivity.
  rewrite (float_add_comm a b). reflexivity.
Qed.




(** C9. The gain reduction is commutative: an answer carrying
    [(g_theta, g_phi)] and an answer carrying [(g_phi, g_theta)] give the
    same gain. *)
Theorem C9_gain_commutative (rt : runtime) (cst cst' : CST)
        (target_freq port mode : pyobj)
        (e0 e1 e0' e1' : pyobj) (rest rest' : list pyobj)
        (g_theta g_phi : float) :
  getFarField cst (gain_query target_freq port mode)
    = Returns (e0 :: e1 :: rest) ->
  scalar_of rt e0 = Some g_theta ->
  scalar_of rt e1 = Some g_phi ->
  getFarField cst' (gain_query target_freq port mode)
    = Returns (e0' :: e1' :: rest') ->
  scalar_of rt e0' = Some g_phi ->
  scalar_of rt e1' = Some g_theta ->
  outcome_of (run (get_gain_at_freq rt (Some cst) target_freq port mode))
  = outcome_of (run (get_gain_at_freq rt (Some cst') target_freq port mode)).
Proof.
  intros Hq H0 H1 Hq' H0' H1'.
  rewrite (get_gain_at_freq_answer rt cst _ _ _ e0 e1 rest _ _ Hq H0 H1).
  rewrite (get_gain_at_freq_answer rt cst' _ _ _ e0' e1' rest' _ _ Hq' H0' H1').
  unfold outcome_of; simpl.
  rewrite (gain_formula_comm rt g_theta g_phi). reflexivity.
Qed.

Lemma C9_gain_commutative_witness :
  outcome_of (run (get_gain_at_freq table_runtime
                     (Some (answering [PyFloat 0; PyFloat 10]))
                     (PyFloat 0.868) (PyInt 1) (PyInt 0)))
  = outcome_of (run (get_gain_at_freq table_runtime
                     (Some (answering [PyFloat 10; PyFloat 0]))
                     (PyFloat 0.868) (PyInt 1) (PyInt 0))).
Proof.
  apply (C9_gain_commutative table_runtime
           (answering [PyFloat 0; PyFloat 10])
           (answering [PyFloat 10; PyFloat 0])
           (PyFloat 0.868) (PyInt 1) (PyInt 0)
           (PyFloat 0) (PyFloat 10) (PyFloat 10) (PyFloat 0) [] [] 0 10);
    reflexivity.
Defined.

Example gain_of_equal_components :
  run (get_gain_at_freq table_runtime
         (Some (answering [PyFloat 0; PyFloat 0]))
         (PyFloat 0.868) (PyInt 1) (PyInt 0))
  = ([gain_query (PyFloat 0.868) (PyInt 1) (PyInt 0)],
     Ok 3.0102999566398121%float).
Proof. vm_compute. reflexivity. Qed.

(* ===================================================================== *)
(** ** The axial-ratio reduction *)
(* ===================================================================== *)

Lemma select_extremes_cases (right left : float) :
  select_extremes right left = (right, left) \/
  select_extremes right left = (left, right).
Proof.
  unfold select_extremes. destruct (float_ge right left); auto.
Qed.

(** On numbers, the selected pair is the larger and the smaller value. *)
Lemma select_extremes_max_min (right left : float) :
  right <> nan -> left <> nan ->
  float_max_of (fst (select_extremes right left)) right left /\
  float_min_of (snd (select_extremes right left)) right left.
Proof.
  intros Hr Hl.
  assert (Rr : (right <=? right)%float = true)
    by (destruct (float_leb_refl_or_nan right); [assumption | contradiction]).
  assert (Rl : (left <=? left)%float = true)
    by (destruct (float_leb_refl_or_nan left); [assumption | contradiction]).
  unfold select_extremes, float_ge, float_max_of, float_min_of.
  destruct (left <=? right)%float eqn:A; cbn [fst snd].
  - repeat split; auto.
  - assert (B : (right <=? left)%float = true).
    { destruct (right <=? left)%float eqn:B; [reflexivity|].
      destruct (float_leb_incomparable left right A B); contradiction. }
    repeat split; auto.
Qed.

Lemma axial_ratio_formula_swap (rt : runtime) (right left : float) :
  axial_ratio_formula rt (fst (select_extremes right left))
                         (snd (select_extremes right left))
  = axial_ratio_formula rt (fst (select_extremes left right))
                           (snd (select_extremes left right)).
Proof.
  unfold select_extremes, float_ge.
  destruct (left <=? right)%float eqn:A, (right <=? left)%float eqn:B;
    cbn [fst snd]; try reflexivity.
  - destruct (float_leb_antisym left right A B) as [E|[[E1|E1] [E2|E2]]];
      subst; reflexivity.
  - unfold axial_ratio_formula.
    rewrite (float_add_comm left right).
    destruct (float_leb_incomparable left right A B) as [E|E]; subst;
      rewrite ?float_sub_nan_l, ?float_sub_nan_r; reflexivity.
Qed.

Lemma floor_eps_positive : (0 <? floor_eps)%float = true.
Proof. reflexivity. Qed.

(** C2. The answer is one ndarray holding the pair [right], [left]
    (for instance [np.array([2.0, 0.0])]): the test [not farfield_results]
    asks the array for its truth value, which numpy refuses for an array
    of several entries; the ValueError is raised outside every [try] and
    leaves [get_axial_ratio_at_freq] in place of the axial ratio.  The
    same test ends [get_gain_at_freq] the same way. *)
Theorem C2_array_pair_raises (rt : runtime)
        (target_freq port mode : pyobj) (right left : float) :
  outcome_of (run (get_axial_ratio_at_freq rt
                     (Some (answering_array
                              (PyList [PyFloat right; PyFloat left])))
                     target_freq port mode))
    = Raise ambiguous_array_error /\
  exn_class ambiguous_array_error = ValueError /\
  outcome_of (run (get_gain_at_freq rt
                     (Some (answering_array
                              (PyList [PyFloat right; PyFloat left])))
                     target_freq port mode))
    = Raise ambiguous_array_error.
Proof.
  split; [|split].
  - rewrite (get_axial_ratio_at_freq_large_array rt
               (answering_array (PyList [PyFloat right; PyFloat left]))
               target_freq port mode
               (PyList [PyFloat right; PyFloat left])
               (PyFloat right) (PyFloat left) [] eq_refl eq_refl).
    reflexivity.
  - reflexivity.
  - rewrite (get_gain_at_freq_large_array rt
               (answering_array (PyList [PyFloat right; PyFloat left]))
               target_freq port mode
               (PyList [PyFloat right; PyFloat left])
               (PyFloat right) (PyFloat left) [] eq_refl eq_refl).
    reflexivity.
Qed.

Example axial_ratio_of_array_pair :
  run (get_axial_ratio_at_freq table_runtime
         (Some (answering_array (PyList [PyFloat 2; PyFloat 0])))
         (PyFloat 0.868) (PyInt 1) (PyInt 0))
  = ([efield_query (PyFloat 0.868) (PyInt 1) (PyInt 0)],
     Raise ambiguous_array_error).
Proof. reflexivity. Qed.

(** The fully linear case of the specification: [right = 2], [left = 0]
    gives a linear ratio of one, hence 0 dB. *)
Example axial_ratio_linear_polarisation :
  run (get_axial_ratio_at_freq table_runtime
         (Some (answering [PyFloat 2; PyFloat 0]))
         (PyFloat 0.868) (PyInt 1) (PyInt 0))
  = ([efield_query (PyFloat 0.868) (PyInt 1) (PyInt 0)], Ok 0%float).
Proof. vm_compute. reflexivity. Qed.

(** C10. The axial-ratio reduction is symmetric: an answer carrying
    [(right, left)] and an answer carrying [(left, right)] give the same
    axial ratio. *)
Theorem C10_axial_ratio_symmetric (rt : runtime) (cst cst' : CST)
        (target_freq port mode : pyobj)
        (e0 e1 e0' e1' : pyobj) (rest rest' : list pyobj)
        (right left : float) :
  getFarField cst (efield_query target_freq port mode)
    = Returns (e0 :: e1 :: rest) ->
  scalar_of rt e0 = Some right ->
  scalar_of rt e1 = Some left ->
  getFarField cst' (efield_query target_freq port mode)
    = Returns (e0' :: e1' :: rest') ->
  scalar_of rt e0' = Some left ->
  scalar_of rt e1' = Some right ->
  outcome_of (run (get_axial_ratio_at_freq rt (Some cst)
                     target_freq port mode))
  = outcome_of (run (get_axial_ratio_at_freq rt (Some cst')
                       target_freq port mode)).
Proof.
  intros Hq H0 H1 Hq' H0' H1'.
  rewrite (get_axial_ratio_at_freq_answer rt cst _ _ _ e0 e1 rest _ _ Hq H0 H1).
  rewrite (get_axial_ratio_at_freq_answer rt cst' _ _ _ e0' e1' rest' _ _
             Hq' H0' H1').
  unfold outcome_of; simpl.
  rewrite (axial_ratio_formula_swap rt right left). reflexivity.
Qed.

Lemma C10_axial_ratio_symmetric_witness :
  outcome_of (run (get_axial_ratio_at_freq table_runtime
                     (Some (answering [PyFloat 2; PyFloat 0]))
                     (PyFloat 0.868) (PyInt 1) (PyInt 0)))
  = outcome_of (run (get_axial_ratio_at_freq table_runtime
                       (Some (answering [PyFloat 0; PyFloat 2]))
                       (PyFloat 0.868) (PyInt 1) (PyInt 0))).
Proof.
  apply (C10_axial_ratio_symmetric table_runtime
           (answering [PyFloat 2; PyFloat 0])
           (answering [PyFloat 0; PyFloat 2])
           (PyFloat 0.868) (PyInt 1) (PyInt 0)
           (PyFloat 2) (PyFloat 0) (PyFloat 0) (PyFloat 2) [] [] 2 0);
    reflexivity.
Defined.

(* ===================================================================== *)
(** ** Failure modes *)
(* ===================================================================== *)

(** C5. The answer is an ndarray with fewer than two components.  For
    the empty array ([np.array([])]) the test [not farfield_results]
    raises numpy's ValueError for the truth value of an empty array; for
    an array without axes ([np.array(7.0)], one component) the test
    passes and [len] raises a TypeError.  Both are raised outside every
    [try], so they leave both helpers in place of the RuntimeError of an
    incomplete result. *)
Theorem C5_short_array_escapes (rt : runtime)
        (target_freq port mode : pyobj) :
  (outcome_of (run (get_gain_at_freq rt
                      (Some (answering_array (PyList [])))
                      target_freq port mode))
     = Raise empty_array_error /\
   outcome_of (run (get_axial_ratio_at_freq rt
                      (Some (answering_array (PyList [])))
                      target_freq port mode))
     = Raise empty_array_error) /\
  (outcome_of (run (get_gain_at_freq rt
                      (Some (answering_array (PyFloat 7)))
                      target_freq port mode))
     = Raise unsized_error /\
   outcome_of (run (get_axial_ratio_at_freq rt
                      (Some (answering_array (PyFloat 7)))
                      target_freq port mode))
     = Raise unsized_error) /\
  exn_class empty_array_error = ValueError /\
  exn_class unsized_error = TypeError /\
  empty_array_error <> new_exn RuntimeError incomplete_msg /\
  unsized_error <> new_exn RuntimeError incomplete_msg.
Proof.
  split; [split|split; [split|]].
  - rewrite (get_gain_at_freq_empty_array rt (answering_array (PyList []))
               target_freq port mode (PyList []) eq_refl eq_refl).
    reflexivity.
  - rewrite (get_axial_ratio_at_freq_empty_array rt
               (answering_array (PyList []))
               target_freq port mode (PyList []) eq_refl eq_refl).
    reflexivity.
  - rewrite (get_gain_at_freq_single_array rt (answering_array (PyFloat 7))
               target_freq port mode (PyFloat 7) (PyFloat 7)
               eq_refl eq_refl).
    reflexivity.
  - rewrite (get_axial_ratio_at_freq_single_array rt
               (answering_array (PyFloat 7))
               target_freq port mode (PyFloat 7) (PyFloat 7)
               eq_refl eq_refl).
    reflexivity.
  - repeat split; discriminate.
Qed.

Example empty_answer :
  run (get_gain_at_freq table_runtime (Some (answering []))
         (PyFloat 0.868) (PyInt 1) (PyInt 0))
  = ([gain_query (PyFloat 0.868) (PyInt 1) (PyInt 0)],
     Raise (new_exn RuntimeError incomplete_msg)).
Proof. reflexivity. Qed.

(** C3. A call whose [target_freq] is a string: the validator, had it
    been awaited, raises the TypeError; the helpers only build the
    validator's coroutine, so both send their query with that frequency
    and carry on with the answer. *)
Theorem C3_nonreal_freq_reaches_collaborator (rt : runtime) :
  let freq := PyStr "868 MHz" in
  let cst := answering [PyFloat 0; PyFloat 0] in
  outcome_of (run (_validate_common_inputs (Some cst) freq (PyInt 1) (PyInt 0)))
    = Raise (new_exn TypeError "ERROR: target_freq must be float or int.") /\
  run (get_gain_at_freq rt (Some cst) freq (PyInt 1) (PyInt 0))
    = ([gain_query freq (PyInt 1) (PyInt 0)],
       match gain_formula rt 0 0 with
       | Some gain_dB => Ok gain_dB
       | None => Raise out_of_range
       end) /\
  run (get_axial_ratio_at_freq rt (Some cst) freq (PyInt 1) (PyInt 0))
    = ([efield_query freq (PyInt 1) (PyInt 0)],
       Ok (axial_ratio_formula rt 0 0)).
Proof.
  intros freq cst. split; [reflexivity|]. split.
  - apply (get_gain_at_freq_answer rt cst freq (PyInt 1) (PyInt 0)
             (PyFloat 0) (PyFloat 0) [] 0 0); reflexivity.
  - apply (get_axial_ratio_at_freq_answer rt cst freq (PyInt 1) (PyInt 0)
             (PyFloat 0) (PyFloat 0) [] 0 0); reflexivity.
Qed.

(** C4. A call with [port = 0], and a call with [mode = -1]: the
    validator, had it been awaited, raises the ValueError; the helpers
    send their query with these arguments and carry on with the answer. *)
Theorem C4_out_of_range_reaches_collaborator (rt : runtime) :
  let freq := PyFloat 0.868 in
  let cst := answering [PyFloat 0; PyFloat 0] in
  outcome_of (run (_validate_common_inputs (Some cst) freq (PyInt 0) (PyInt 0)))
    = Raise (new_exn ValueError "ERROR: port must be an integer >= 1.") /\
  outcome_of (run (_validate_common_inputs (Some cst) freq (PyInt 1) (PyInt (-1))))
    = Raise (new_exn ValueError "ERROR: mode must be an integer >= 0.") /\
  run (get_gain_at_freq rt (Some cst) freq (PyInt 0) (PyInt 0))
    = ([gain_query freq (PyInt 0) (PyInt 0)],
       match gain_formula rt 0 0 with
       | Some gain_dB => Ok gain_dB
       | None => Raise out_of_range
       end) /\
  run (get_axial_ratio_at_freq rt (Some cst) freq (PyInt 1) (PyInt (-1)))
    = ([efield_query freq (PyInt 1) (PyInt (-1))],
       Ok (axial_ratio_formula rt 0 0)).
Proof.
  intros freq cst. split; [reflexivity|]. split; [reflexivity|]. split.
  - apply (get_gain_at_freq_answer rt cst freq (PyInt 0) (PyInt 0)
             (PyFloat 0) (PyFloat 0) [] 0 0); reflexivity.
  - apply (get_axial_ratio_at_freq_answer rt cst freq (PyInt 1) (PyInt (-1))
             (PyFloat 0) (PyFloat 0) [] 0 0); reflexivity.
Qed.

(** What the [except] clauses do with the failures they are written for:
    a COM error that carries its information tuple, and any other
    exception, are wrapped with their text at the end of the message. *)
Lemma handler_wraps_com_error (s : string) (text : string) :
  raised_by_handler (mkExn com_error s (AttrTuple (Some text)))
  = new_exn RuntimeError
      ("ERROR: CST failed to retrieve farfield data. Details: " ++ text).
Proof. reflexivity. Qed.

Lemma handler_wraps_exception (err : exn) :
  exn_class err <> com_error ->
  is_Exception (exn_class err) = true ->
  raised_by_handler err
  = new_exn RuntimeError
      ("ERROR: Unexpected failure retrieving farfield results. "
         ++ exn_str err).
Proof.
  intros Hc Hi. unfold raised_by_handler, farfield_handler.
  destruct (exc_class_eqb (exn_class err) com_error) eqn:E.
  - destruct (exn_class err); simpl in E; try discriminate. congruence.
  - rewrite Hi. reflexivity.
Qed.

(** C6. A COM failure without exception information (pywin32 sets
    [excepinfo] to [None]): subscripting [None] inside the handler raises
    a TypeError, which leaves both helpers in place of the wrapped
    RuntimeError. *)
Theorem C6_com_error_without_excepinfo (rt : runtime)
        (target_freq port mode : pyobj) :
  outcome_of (run (get_gain_at_freq rt (Some (failing rpc_unavailable))
                     target_freq port mode))
    = Raise (new_exn TypeError "'NoneType' object is not subscriptable") /\
  outcome_of (run (get_axial_ratio_at_freq rt (Some (failing rpc_unavailable))
                     target_freq port mode))
    = Raise (new_exn TypeError "'NoneType' object is not subscriptable").
Proof.
  split.
  - rewrite (get_gain_at_freq_failure rt (failing rpc_unavailable)
               target_freq port mode rpc_unavailable eq_refl).
    reflexivity.
  - rewrite (get_axial_ratio_at_freq_failure rt (failing rpc_unavailable)
               target_freq port mode rpc_unavailable eq_refl).
    reflexivity.
Qed.

Example com_error_with_description :
  outcome_of (run (get_gain_at_freq table_runtime (Some (failing no_monitor))
                     (PyFloat 0.868) (PyInt 1) (PyInt 0)))
  = Raise (new_exn RuntimeError
      "ERROR: CST failed to retrieve farfield data. Details: No farfield monitor").
Proof. reflexivity. Qed.



Example strings_for_components :
  run (get_axial_ratio_at_freq table_runtime
         (Some (answering [PyStr "n/a"; PyStr "n/a"]))
         (PyFloat 0.868) (PyInt 1) (PyInt 0))
  = ([efield_query (PyFloat 0.868) (PyInt 1) (PyInt 0)],
     Raise (new_exn RuntimeError axial_parse_msg)).
Proof. reflexivity. Qed.

(* ===================================================================== *)
(** ** Rounding of a product in binary64 *)
(* ===================================================================== *)


















(* ===================================================================== *)
(** ** Perfect circular polarisation *)
(* ===================================================================== *)

Lemma floor_eps_value : floor_eps = 1e-300%float.
Proof. reflexivity. Qed.

Lemma two_over_floor_eps :
  (2 / floor_eps)%float = 1.9999999999999998e+300%float.
Proof. reflexivity. Qed.



Example axial_ratio_perfect_circular :
  run (get_axial_ratio_at_freq table_runtime
         (Some (answering [PyFloat 1; PyFloat 1]))
         (PyFloat 0.868) (PyInt 1) (PyInt 0))
  = ([efield_query (PyFloat 0.868) (PyInt 1) (PyInt 0)],
     Ok 6006.0205999132795%float).
Proof. vm_compute. reflexivity. Qed.

(* ===================================================================== *)
(** ** More on the validator *)
(* ===================================================================== *)

(** X1. Awaited, [_validate_common_inputs] accepts exactly the calls with
    a project object, a [target_freq] that is a float or an int (a bool
    counts as an int), an int [port] of at least 1 and an int [mode] of
    at least 0. *)
Theorem validator_accepts_iff (myCST : option CST)
        (target_freq port mode : pyobj) :
  run (_validate_common_inputs myCST target_freq port mode) = ([], Ok tt)
  <->
  (exists cst, myCST = Some cst) /\
  isinstance_float_or_int target_freq = true /\
  (exists n, as_int port = Some n /\ (1 <= n)%Z) /\
  (exists k, as_int mode = Some k /\ (0 <= k)%Z).
Proof.
  split.
  - unfold run, _validate_common_inputs, await, isinstance_int, int_lt.
    destruct myCST as [cst|]; [|discriminate].
    destruct (isinstance_float_or_int target_freq); [|discriminate].
    destruct (as_int port) as [n|]; [|discriminate]. simpl.
    destruct (Z.ltb_spec n 1); [discriminate|].
    destruct (as_int mode) as [k|]; [|discriminate]. simpl.
    destruct (Z.ltb_spec k 0); [discriminate|].
    intros _. repeat split; eauto.
  - intros [[cst ->] [Hf [[n [Hp Hn]] [k [Hm Hk]]]]].
    exact (validator_accepts cst target_freq port mode n k Hf Hp Hn Hm Hk).
Qed.

(** X2. The validator never talks to the collaborator, and the only
    exceptions it ends with are TypeError and ValueError. *)
Theorem validator_is_pure (myCST : option CST)
        (target_freq port mode : pyobj) :
  queries_sent (run (_validate_common_inputs myCST target_freq port mode)) = []
  /\
  (raised_class (run (_validate_common_inputs myCST target_freq port mode))
     = None \/
   raised_class (run (_validate_common_inputs myCST target_freq port mode))
     = Some TypeError \/
   raised_class (run (_validate_common_inputs myCST target_freq port mode))
     = Some ValueError).
Proof.
  unfold run, _validate_common_inputs, await, queries_sent, raised_class.
  destruct myCST as [cst|]; [|simpl; auto].
  destruct (isinstance_float_or_int target_freq); [|simpl; auto].
  destruct (isinstance_int port); [|simpl; auto].
  destruct (int_lt port 1); [simpl; auto|].
  destruct (isinstance_int mode); [|simpl; auto].
  destruct (int_lt mode 0); simpl; auto.
Qed.

(** X3. The first failing check decides the error: a [target_freq] of the
    wrong type is reported whatever [port] and [mode] are, and a [port]
    below 1 is reported as a ValueError even when [mode] is not an
    integer at all. *)
Theorem validator_first_failure_wins (cst : CST)
        (target_freq port mode : pyobj) :
  (isinstance_float_or_int target_freq = false ->
   outcome_of (run (_validate_common_inputs (Some cst) target_freq port mode))
   = Raise (new_exn TypeError "ERROR: target_freq must be float or int."))
  /\
  (forall n : Z,
     isinstance_float_or_int target_freq = true ->
     as_int port = Some n -> (n < 1)%Z ->
     outcome_of (run (_validate_common_inputs (Some cst) target_freq port mode))
     = Raise (new_exn ValueError "ERROR: port must be an integer >= 1.")).
Proof.
  split.
  - intros H. rewrite (validator_rejects_nonreal_freq cst _ port mode H).
    reflexivity.
  - intros n Hf Hp Hn.
    rewrite (validator_rejects_low_port cst _ _ mode n Hf Hp Hn).
    reflexivity.
Qed.

Lemma validator_first_failure_wins_witness :
  outcome_of (run (_validate_common_inputs (Some (answering []))
                     PyNone (PyInt 0) (PyStr "TE10")))
  = Raise (new_exn TypeError "ERROR: target_freq must be float or int.")
  /\
  outcome_of (run (_validate_common_inputs (Some (answering []))
                     (PyInt 2) (PyBool false) (PyStr "TE10")))
  = Raise (new_exn ValueError "ERROR: port must be an integer >= 1.").
Proof.
  split.
  - apply (proj1 (validator_first_failure_wins (answering [])
                    PyNone (PyInt 0) (PyStr "TE10"))).
    reflexivity.
  - apply (proj2 (validator_first_failure_wins (answering [])
                    (PyInt 2) (PyBool false) (PyStr "TE10")) 0%Z);
      [reflexivity | reflexivity | lia].
Defined.

(* ===================================================================== *)
(** ** More on the two helpers *)
(* ===================================================================== *)

(** X4. Each helper makes at most one call to the collaborator: exactly
    one, its own query built from the arguments as given, whenever there
    is a project object (whatever the collaborator then does), and none
    without one. *)
Theorem helpers_send_one_query (rt : runtime) (myCST : option CST)
        (target_freq port mode : pyobj) :
  queries_sent (run (get_gain_at_freq rt myCST target_freq port mode))
  = match myCST with
    | Some _ => [gain_query target_freq port mode]
    | None => []
    end
  /\
  queries_sent (run (get_axial_ratio_at_freq rt myCST target_freq port mode))
  = match myCST with
    | Some _ => [efield_query target_freq port mode]
    | None => []
    end.
Proof.
  destruct myCST as [cst|].
  - apply helpers_always_query.
  - split; reflexivity.
Qed.

(** X5. Without a project object the helpers do not raise the
    validator's TypeError: the attribute lookup fails inside the [try]
    block and comes out as the RuntimeError of an unexpected failure. *)
Theorem helpers_without_project (rt : runtime)
        (target_freq port mode : pyobj) :
  let wrapped_lookup :=
    new_exn RuntimeError
      "ERROR: Unexpected failure retrieving farfield results. 'NoneType' object has no attribute 'Results'" in
  outcome_of (run (_validate_common_inputs None target_freq port mode))
    = Raise (new_exn TypeError "ERROR: myCST object must be provided.") /\
  outcome_of (run (get_gain_at_freq rt None target_freq port mode))
    = Raise wrapped_lookup /\
  outcome_of (run (get_axial_ratio_at_freq rt None target_freq port mode))
    = Raise wrapped_lookup.
Proof. repeat split. Qed.

(** X6. An exception of the collaborator that is an [Exception] but not a
    COM error leaves both helpers as a RuntimeError whose message ends
    with [str(err)]. *)
Theorem helpers_wrap_exception (rt : runtime) (cst : CST)
        (target_freq port mode : pyobj) (err : exn) :
  exn_class err <> com_error ->
  is_Exception (exn_class err) = true ->
  (getFarField cst (gain_query target_freq port mode) = Raises err ->
   outcome_of (run (get_gain_at_freq rt (Some cst) target_freq port mode))
   = Raise (new_exn RuntimeError
       ("ERROR: Unexpected failure retrieving farfield results. "
          ++ exn_str err))) /\
  (getFarField cst (efield_query target_freq port mode) = Raises err ->
   outcome_of (run (get_axial_ratio_at_freq rt (Some cst)
                      target_freq port mode))
   = Raise (new_exn RuntimeError
       ("ERROR: Unexpected failure retrieving farfield results. "
          ++ exn_str err))).
Proof.
  intros Hc Hi. split; intros Hq.
  - rewrite (get_gain_at_freq_failure rt cst _ _ _ err Hq).
    unfold outcome_of; simpl. rewrite (handler_wraps_exception err Hc Hi).
    reflexivity.
  - rewrite (get_axial_ratio_at_freq_failure rt cst _ _ _ err Hq).
    unfold outcome_of; simpl. rewrite (handler_wraps_exception err Hc Hi).
    reflexivity.
Qed.

Lemma helpers_wrap_exception_witness :
  outcome_of (run (get_gain_at_freq table_runtime
                     (Some (failing (new_exn ValueError "no monitor at 0.868")))
                     (PyFloat 0.868) (PyInt 1) (PyInt 0)))
  = Raise (new_exn RuntimeError
      "ERROR: Unexpected failure retrieving farfield results. no monitor at 0.868").
Proof.
  assert (Hc : exn_class (new_exn ValueError "no monitor at 0.868") <> com_error)
    by discriminate.
  apply (proj1 (helpers_wrap_exception table_runtime
                  (failing (new_exn ValueError "no monitor at 0.868"))
                  (PyFloat 0.868) (PyInt 1) (PyInt 0)
                  (new_exn ValueError "no monitor at 0.868") Hc eq_refl)).
  reflexivity.
Defined.

(** X7. A COM error that carries its information tuple leaves both
    helpers as a RuntimeError whose message ends with the tuple's entry
    at index 2, printed as [None] when that entry is [None]. *)
Theorem helpers_wrap_com_error (rt : runtime) (cst : CST)
        (target_freq port mode : pyobj) (err : exn)
        (description : option string) :
  exn_class err = com_error ->
  exn_excepinfo err = AttrTuple description ->
  let text := match description with Some t => t | None => "None"%string end in
  (getFarField cst (gain_query target_freq port mode) = Raises err ->
   outcome_of (run (get_gain_at_freq rt (Some cst) target_freq port mode))
   = Raise (new_exn RuntimeError
       ("ERROR: CST failed to retrieve farfield data. Details: " ++ text))) /\
  (getFarField cst (efield_query target_freq port mode) = Raises err ->
   outcome_of (run (get_axial_ratio_at_freq rt (Some cst)
                      target_freq port mode))
   = Raise (new_exn RuntimeError
       ("ERROR: CST failed to retrieve farfield data. Details: " ++ text))).
Proof.
  intros Hc Hi text.
  assert (Hh : raised_by_handler err
               = new_exn RuntimeError
                   ("ERROR: CST failed to retrieve farfield data. Details: "
                      ++ text)).
  { unfold raised_by_handler, farfield_handler, details_2, text.
    rewrite Hc, Hi. destruct description; reflexivity. }
  split; intros Hq.
  - rewrite (get_gain_at_freq_failure rt cst _ _ _ err Hq).
    unfold outcome_of; simpl. rewrite Hh. reflexivity.
  - rewrite (get_axial_ratio_at_freq_failure rt cst _ _ _ err Hq).
    unfold outcome_of; simpl. rewrite Hh. reflexivity.
Qed.

Lemma helpers_wrap_com_error_witness :
  outcome_of (run (get_axial_ratio_at_freq table_runtime
                     (Some (failing no_monitor))
                     (PyFloat 0.868) (PyInt 1) (PyInt 0)))
  = Raise (new_exn RuntimeError
      "ERROR: CST failed to retrieve farfield data. Details: No farfield monitor").
Proof.
  apply (proj2 (helpers_wrap_com_error table_runtime (failing no_monitor)
                  (PyFloat 0.868) (PyInt 1) (PyInt 0)
                  no_monitor (Some "No farfield monitor"%string)
                  eq_refl eq_refl)).
  reflexivity.
Defined.

(** X8. An exception of the collaborator that does not derive from
    [Exception] (a cancellation) goes through both helpers unchanged. *)
Theorem helpers_pass_base_exception (rt : runtime) (cst : CST)
        (target_freq port mode : pyobj) (err : exn) :
  is_Exception (exn_class err) = false ->
  (getFarField cst (gain_query target_freq port mode) = Raises err ->
   outcome_of (run (get_gain_at_freq rt (Some cst) target_freq port mode))
   = Raise err) /\
  (getFarField cst (efield_query target_freq port mode) = Raises err ->
   outcome_of (run (get_axial_ratio_at_freq rt (Some cst)
                      target_freq port mode))
   = Raise err).
Proof.
  intros Hi.
  assert (Hh : raised_by_handler err = err).
  { unfold raised_by_handler, farfield_handler.
    destruct (exn_class err); try discriminate Hi. reflexivity. }
  split; intros Hq.
  - rewrite (get_gain_at_freq_failure rt cst _ _ _ err Hq).
    unfold outcome_of; simpl. rewrite Hh. reflexivity.
  - rewrite (get_axial_ratio_at_freq_failure rt cst _ _ _ err Hq).
    unfold outcome_of; simpl. rewrite Hh. reflexivity.
Qed.

Lemma helpers_pass_base_exception_witness :
  outcome_of (run (get_gain_at_freq table_runtime
                     (Some (failing (new_exn CancelledError EmptyString)))
                     (PyFloat 0.868) (PyInt 1) (PyInt 0)))
  = Raise (new_exn CancelledError EmptyString).
Proof.
  apply (proj1 (helpers_pass_base_exception table_runtime
                  (failing (new_exn CancelledError EmptyString))
                  (PyFloat 0.868) (PyInt 1) (PyInt 0)
                  (new_exn CancelledError EmptyString) eq_refl)).
  reflexivity.
Defined.

Lemma raised_by_handler_classes (err : exn) :
  exn_class (raised_by_handler err) = RuntimeError \/
  (exn_class err = com_error /\
   ((exn_excepinfo err = AttrNone /\
     exn_class (raised_by_handler err) = TypeError) \/
    (exists raised message,
       exn_excepinfo err = AttrUnreadable raised message /\
       exn_class (raised_by_handler err) = raised))) \/
  (is_Exception (exn_class err) = false /\
   exn_class (raised_by_handler err) = exn_class err).
Proof.
  unfold raised_by_handler, farfield_handler, details_2.
  destruct (exc_class_eqb (exn_class err) com_error) eqn:Hc.
  - assert (exn_class err = com_error)
      by (destruct (exn_class err); simpl in Hc; congruence).
    destruct (exn_excepinfo err) as [ | |[text|] |raised message]; simpl.
    + left; reflexivity.
    + right; left. split; [assumption|]. left. split; reflexivity.
    + left; reflexivity.
    + left; reflexivity.
    + right; left. split; [assumption|]. right.
      exists raised, message. split; reflexivity.
  - destruct (is_Exception (exn_class err)) eqn:Hi; simpl; auto.
Qed.

Lemma raised_class_outcome {A : Type} (r : list query * result A) :
  raised_class r
  = match outcome_of r with
    | Raise e => Some (exn_class e)
    | Ok _ => None
    end.
Proof. reflexivity. Qed.

(** On a list answer a run ends in a value, a RuntimeError or, for the
    gain, the OverflowError of a power. *)
Lemma get_gain_at_freq_list_classes (rt : runtime) (cst : CST)
      (target_freq port mode : pyobj) (values : list pyobj)
      (c : exc_class) :
  getFarField cst (gain_query target_freq port mode) = Returns values ->
  raised_class (run (get_gain_at_freq rt (Some cst) target_freq port mode))
    = Some c ->
  c = RuntimeError \/ c = OverflowError.
Proof.
  intros Hq. rewrite (get_gain_at_freq_on_list rt cst _ _ _ values Hq).
  unfold raised_class; simpl.
  destruct values as [|e0 [|e1 rest]];
    try (intros [= <-]; left; reflexivity).
  destruct (scalar_of rt e0) as [v0|];
    [destruct (scalar_of rt e1) as [v1|]|];
    try (intros [= <-]; left; reflexivity).
  destruct (gain_formula rt v0 v1); [discriminate|].
  intros [= <-]. right; reflexivity.
Qed.

Lemma get_axial_ratio_at_freq_list_classes (rt : runtime) (cst : CST)
      (target_freq port mode : pyobj) (values : list pyobj)
      (c : exc_class) :
  getFarField cst (efield_query target_freq port mode) = Returns values ->
  raised_class (run (get_axial_ratio_at_freq rt (Some cst)
                       target_freq port mode))
    = Some c ->
  c = RuntimeError.
Proof.
  intros Hq. rewrite (get_axial_ratio_at_freq_on_list rt cst _ _ _ values Hq).
  unfold raised_class; simpl.
  destruct values as [|e0 [|e1 rest]];
    try (intros [= <-]; reflexivity).
  destruct (scalar_of rt e0) as [v0|];
    [destruct (scalar_of rt e1) as [v1|]|];
    try (intros [= <-]; reflexivity).
Qed.

(** X9. The exceptions that can leave the helpers on a project object,
    when the collaborator raises or answers with a list or an ndarray.  A
    run that ends in an exception ends in a RuntimeError; or in what the
    handler of a COM error raises when [excepinfo] is [None] (TypeError)
    or cannot be read at index 2 (the exception of that subscription,
    IndexError for a short tuple); or in the collaborator's own exception
    when that is not an [Exception]; or, on an ndarray answer, in the
    ValueError of its truth test (no entry, or several) or the TypeError
    of [len] on an array without axes; or, for [get_gain_at_freq] only,
    in the OverflowError of a power. *)
Theorem helpers_escaping_exceptions (rt : runtime) (cst : CST)
        (target_freq port mode : pyobj) (c : exc_class) :
  (raised_class (run (get_gain_at_freq rt (Some cst) target_freq port mode))
     = Some c ->
   c = RuntimeError \/ c = OverflowError \/
   (exists err,
      getFarField cst (gain_query target_freq port mode) = Raises err /\
      ((exn_class err = com_error /\
        ((exn_excepinfo err = AttrNone /\ c = TypeError) \/
         (exists message,
            exn_excepinfo err = AttrUnreadable c message))) \/
       (is_Exception (exn_class err) = false /\ c = exn_class err))) \/
   (exists array,
      getFarField cst (gain_query target_freq port mode)
        = ReturnsArray array /\
      ((List.length (leaves array) <> 1%nat /\ c = ValueError) \/
       (is_sequence array = false /\ c = TypeError))))
  /\
  (raised_class (run (get_axial_ratio_at_freq rt (Some cst)
                        target_freq port mode))
     = Some c ->
   c = RuntimeError \/
   (exists err,
      getFarField cst (efield_query target_freq port mode) = Raises err /\
      ((exn_class err = com_error /\
        ((exn_excepinfo err = AttrNone /\ c = TypeError) \/
         (exists message,
            exn_excepinfo err = AttrUnreadable c message))) \/
       (is_Exception (exn_class err) = false /\ c = exn_class err))) \/
   (exists array,
      getFarField cst (efield_query target_freq port mode)
        = ReturnsArray array /\
      ((List.length (leaves array) <> 1%nat /\ c = ValueError) \/
       (is_sequence array = false /\ c = TypeError)))).
Proof.
  split.
  - destruct (getFarField cst (gain_query target_freq port mode))
      as [values|array|err] eqn:Hq.
    + intros Hc.
      destruct (get_gain_at_freq_list_classes rt cst _ _ _ values c Hq Hc);
        auto.
    + destruct (leaves array) as [|x [|y more]] eqn:Hl.
      * rewrite (get_gain_at_freq_empty_array rt cst _ _ _ array Hq Hl).
        intros [= <-]. right; right; right. exists array.
        split; [reflexivity|]. left. rewrite Hl. split; [discriminate|].
        reflexivity.
      * rewrite (get_gain_at_freq_single_array rt cst _ _ _ array x Hq Hl).
        destruct (py_truth x); [|intros [= <-]; left; reflexivity].
        destruct array as [ | b | n | v | s | items];
          try (intros [= <-]; right; right; right; eexists;
               split; [reflexivity|]; right; split; reflexivity).
        destruct items as [|r0 [|r1 rows]];
          try (intros [= <-]; left; reflexivity).
        intros Hc.
        destruct (get_gain_at_freq_list_classes rt
                    (answering (r0 :: r1 :: rows)) _ _ _
                    (r0 :: r1 :: rows) c eq_refl Hc); auto.
      * rewrite (get_gain_at_freq_large_array rt cst _ _ _ array x y more
                   Hq Hl).
        intros [= <-]. right; right; right. exists array.
        split; [reflexivity|]. left. rewrite Hl. split; [discriminate|].
        reflexivity.
    + rewrite (get_gain_at_freq_failure rt cst _ _ _ err Hq).
      intros [= <-].
      destruct (raised_by_handler_classes err)
        as [H|[[H1 [[H2 H3]|[raised [message [H2 H3]]]]]|[H1 H2]]].
      * left; exact H.
      * right; right; left. exists err. split; [reflexivity|]. left.
        split; [exact H1|]. left. auto.
      * right; right; left. exists err. split; [reflexivity|]. left.
        split; [exact H1|]. right. exists message. rewrite H3. exact H2.
      * right; right; left. exists err. split; [reflexivity|]. right. auto.
  - destruct (getFarField cst (efield_query target_freq port mode))
      as [values|array|err] eqn:Hq.
    + intros Hc. left.
      exact (get_axial_ratio_at_freq_list_classes rt cst _ _ _ values c Hq Hc).
    + destruct (leaves array) as [|x [|y more]] eqn:Hl.
      * rewrite (get_axial_ratio_at_freq_empty_array rt cst _ _ _ array Hq Hl).
        intros [= <-]. right; right. exists array.
        split; [reflexivity|]. left. rewrite Hl. split; [discriminate|].
        reflexivity.
      * rewrite (get_axial_ratio_at_freq_single_array rt cst _ _ _ array x
                   Hq Hl).
        destruct (py_truth x); [|intros [= <-]; left; reflexivity].
        destruct array as [ | b | n | v | s | items];
          try (intros [= <-]; right; right; eexists;
               split; [reflexivity|]; right; split; reflexivity).
        destruct items as [|r0 [|r1 rows]];
          try (intros [= <-]; left; reflexivity).
        intros Hc. left.
        exact (get_axial_ratio_at_freq_list_classes rt
                 (answering (r0 :: r1 :: rows)) _ _ _
                 (r0 :: r1 :: rows) c eq_refl Hc).
      * rewrite (get_axial_ratio_at_freq_large_array rt cst _ _ _ array
                   x y more Hq Hl).
        intros [= <-]. right; right. exists array.
        split; [reflexivity|]. left. rewrite Hl. split; [discriminate|].
        reflexivity.
    + rewrite (get_axial_ratio_at_freq_failure rt cst _ _ _ err Hq).
      intros [= <-].
      destruct (raised_by_handler_classes err)
        as [H|[[H1 [[H2 H3]|[raised [message [H2 H3]]]]]|[H1 H2]]].
      * left; exact H.
      * right; left. exists err. split; [reflexivity|]. left.
        split; [exact H1|]. left. auto.
      * right; left. exists err. split; [reflexivity|]. left.
        split; [exact H1|]. right. exists message. rewrite H3. exact H2.
      * right; left. exists err. split; [reflexivity|]. right. auto.
Qed.

(** A COM error whose [excepinfo] is a tuple of two entries:
    [details[2]] raises an IndexError inside the handler. *)
Example com_error_with_short_excepinfo :
  outcome_of (run (get_gain_at_freq table_runtime
                     (Some (failing
                              (mkExn com_error
                                     "(-2147352567, 'Exception occurred.')"
                                     (AttrUnreadable IndexError
                                        "tuple index out of range"))))
                     (PyFloat 0.868) (PyInt 1) (PyInt 0)))
  = Raise (new_exn IndexError "tuple index out of range").
Proof. reflexivity. Qed.

(** An ndarray of shape [(2, 1)] holding one magnitude per row cannot be
    tested for truth either. *)
Example axial_ratio_of_column_array :
  outcome_of (run (get_axial_ratio_at_freq table_runtime
                     (Some (answering_array
                              (PyList [PyList [PyFloat 2];
                                       PyList [PyFloat 0]])))
                     (PyFloat 0.868) (PyInt 1) (PyInt 0)))
  = Raise ambiguous_array_error.
Proof. reflexivity. Qed.










Example axial_ratio_from_1x1_arrays :
  run (get_axial_ratio_at_freq table_runtime
         (Some (answering [PyList [PyList [PyFloat 2]];
                           PyList [PyList [PyFloat 0]]]))
         (PyFloat 0.868) (PyInt 1) (PyInt 0))
  = ([efield_query (PyFloat 0.868) (PyInt 1) (PyInt 0)], Ok 0%float).
Proof. vm_compute. reflexivity. Qed.

Example entry_nested_65_deep_is_refused :
  scalar_of table_runtime (wrapped 65 (PyFloat 2)) = None.
Proof. vm_compute. reflexivity. Qed.





(* ===================================================================== *)
(** ** The coaxial feed *)
(* ===================================================================== *)

Lemma feed_script_calls (a : feed_args) :
  feed_script a
  = [ addMaterialFromLib (inner_mat a);
      addMaterialFromLib (consub_mat a);
      addMaterialFromLib (outer_mat a);
      ensureExistence (coax_component a);
      addCylinder (xfeed a) (yfeed a) (feed_z_bot a) (feed_z_top a)
                  (inner_conn_rad a) 0
                  (inner_name a) (coax_component a) (inner_mat a) "z";
      addCylinder (xfeed a) (yfeed a) (feed_z_bot a) 0
                  (consub_outer_rad a) (inner_conn_rad a)
                  (consub_name a) (coax_component a) (consub_mat a) "z";
      addCylinder (xfeed a) (yfeed a) (feed_z_bot a) 0
                  (outer_shield_outer_rad a) (consub_outer_rad a)
                  (outer_name a) (coax_component a) (outer_mat a) "z" ]
    ++ (if make_ground_cut a
        then [ addCylinder (xfeed a) (yfeed a) (feed_z_bot a) (feed_z_top a)
                           (outer_shield_outer_rad a) 0
                           "CoaxCut" (coax_component a) "Vacuum" "z";
               subtract (ground_component a)
                        (coax_component a ++ ":CoaxCut") ]
        else [])
    ++ [ addWaveguidePort
           (xfeed a - outer_shield_outer_rad a)
           (xfeed a + outer_shield_outer_rad a)
           (yfeed a - outer_shield_outer_rad a)
           (yfeed a + outer_shield_outer_rad a)
           (feed_z_bot a) (feed_z_bot a)
           (orientation a) (nModes a) ].
Proof.
  unfold feed_script, create_coax_and_port.
  destruct (make_ground_cut a); reflexivity.
Qed.

(** The function is its script, performed call by call. *)
Lemma create_coax_and_port_script (b : Builder) (a : feed_args)
      (log : list build_call) :
  create_coax_and_port (Some b) a log = perform_all b (feed_script a) log.
Proof.
  rewrite feed_script_calls. unfold create_coax_and_port.
  destruct (make_ground_cut a); simpl.
  - unfold and_then, skip.
    repeat match goal with
           | |- context [call b ?c ?l] =>
               destruct (call b c l) as [? [[]|?]]; try reflexivity
           end.
  - unfold and_then, skip.
    repeat match goal with
           | |- context [call b ?c ?l] =>
               destruct (call b c l) as [? [[]|?]]; try reflexivity
           end.
Qed.

Lemma prefix_of_nil {A : Type} (l : list A) : prefix_of [] l.
Proof. exists l. reflexivity. Qed.

Lemma prefix_of_cons {A : Type} (x : A) (l1 l2 : list A) :
  prefix_of l1 l2 -> prefix_of (x :: l1) (x :: l2).
Proof. intros [rest ->]. exists rest. reflexivity. Qed.

Lemma prefix_of_Forall {A : Type} (P : A -> Prop) (l1 l2 : list A) :
  prefix_of l1 l2 -> Forall P l2 -> Forall P l1.
Proof.
  intros [rest ->] H. apply Forall_app in H. tauto.
Qed.

(** Performing a list of calls stops at the first call that raises: the
    calls made are an initial segment of the list, all of it when the run
    ends normally, and otherwise they end with the call that raised. *)
Lemma perform_all_fail_stop (b : Builder) (calls : list build_call) :
  forall log : list build_call,
  exists made : list build_call,
    fst (perform_all b calls log) = log ++ made /\
    prefix_of made calls /\
    (forall pre c post, made = pre ++ c :: post -> post <> [] ->
       perform b (log ++ pre) c = None) /\
    match snd (perform_all b calls log) with
    | Ok _ =>
        made = calls /\
        (forall pre c post, calls = pre ++ c :: post ->
           perform b (log ++ pre) c = None)
    | Raise e =>
        exists pre c, made = pre ++ [c] /\ perform b (log ++ pre) c = Some e
    end.
Proof.
  induction calls as [|c rest IH]; intros log.
  - exists []. simpl. rewrite app_nil_r.
    repeat split; auto using prefix_of_nil.
    + intros [|x pre] c post H; discriminate H.
    + intros [|x pre] c post H; discriminate H.
  - simpl perform_all. unfold and_then, call.
    destruct (perform b log c) as [e|] eqn:Hc.
    + exists [c]. simpl. repeat split.
      * apply prefix_of_cons, prefix_of_nil.
      * intros [|x [|y pre]] c' post H Hpost; try discriminate H.
        injection H as _ H. congruence.
      * exists [], c. rewrite app_nil_r. auto.
    + destruct (IH (log ++ [c])) as [made [Hlog [Hpre [Hret Hend]]]].
      exists (c :: made). rewrite Hlog, <- app_assoc. simpl.
      split; [reflexivity|]. split; [apply prefix_of_cons, Hpre|]. split.
      * intros [|x pre] c' post H Hpost.
        -- injection H as <- _. rewrite app_nil_r. exact Hc.
        -- injection H as <- H.
           specialize (Hret pre c' post H Hpost).
           rewrite <- app_assoc in Hret. exact Hret.
      * destruct (snd (perform_all b rest (log ++ [c]))) as [[]|e].
        -- destruct Hend as [-> Hall]. split; [reflexivity|].
           intros [|x pre] c' post H.
           ++ injection H as <- _. rewrite app_nil_r. exact Hc.
           ++ injection H as <- H. specialize (Hall pre c' post H).
              rewrite <- app_assoc in Hall. exact Hall.
        -- destruct Hend as [pre [c' [-> Hc']]].
           exists (c :: pre), c'. split; [reflexivity|].
           rewrite <- app_assoc in Hc'. exact Hc'.
Qed.

(** The run of [create_coax_and_port] on a builder, against its script. *)
Lemma feed_run_fail_stop (b : Builder) (a : feed_args) :
  let made := fst (create_coax_and_port (Some b) a []) in
  prefix_of made (feed_script a) /\
  (forall pre c post, made = pre ++ c :: post -> post <> [] ->
     perform b pre c = None) /\
  match snd (create_coax_and_port (Some b) a []) with
  | Ok _ =>
      made = feed_script a /\
      (forall pre c post, feed_script a = pre ++ c :: post ->
         perform b pre c = None)
  | Raise e =>
      exists pre c, made = pre ++ [c] /\ perform b pre c = Some e
  end.
Proof.
  intros made. unfold made. rewrite create_coax_and_port_script.
  destruct (perform_all_fail_stop b (feed_script a) [])
    as [made' [Hlog [Hpre [Hret Hend]]]].
  simpl in Hlog. rewrite Hlog. auto.
Qed.

(** X13. [create_coax_and_port] stops at the first builder call that
    raises and lets that exception through: the calls made are an initial
    segment of its script; the run ends normally only when the whole
    script was performed and every call returned; when it ends in an
    exception, that exception is the one the last call made raised, and
    every earlier call had returned. *)
Theorem create_coax_and_port_fail_stop (b : Builder) (a : feed_args) :
  let made := fst (create_coax_and_port (Some b) a []) in
  prefix_of made (feed_script a) /\
  (forall pre c post, made = pre ++ c :: post -> post <> [] ->
     perform b pre c = None) /\
  match snd (create_coax_and_port (Some b) a []) with
  | Ok _ =>
      made = feed_script a /\
      (forall pre c post, feed_script a = pre ++ c :: post ->
         perform b pre c = None)
  | Raise e =>
      exists pre c, made = pre ++ [c] /\ perform b pre c = Some e
  end.
Proof.
  intros made. unfold made. rewrite create_coax_and_port_script.
  destruct (perform_all_fail_stop b (feed_script a) [])
    as [made' [Hlog [Hpre [Hret Hend]]]].
  simpl in Hlog. rewrite Hlog. auto.
Qed.

(** Without a project object nothing is built: the first attribute
    lookup raises AttributeError and no call is made. *)
Lemma create_coax_and_port_without_project (a : feed_args)
        (log : list build_call) :
  create_coax_and_port None a log
  = (log, Raise (new_exn AttributeError
                   "'NoneType' object has no attribute 'Build'")).
Proof. reflexivity. Qed.

Lemma cons_eq_inv {A : Type} (x y : A) (l l' : list A) :
  x :: l = y :: l' -> x = y /\ l = l'.
Proof. intros H. injection H as -> ->. auto. Qed.

(** Finding where a call sits in an explicit list of calls: one goal is
    left per position of [H]'s left-hand list, with [Hx] relating the call
    to the one at that position. *)
Ltac locate_call H Hx :=
  lazymatch type of H with
  | [] = ?pre ++ _ :: _ => destruct pre; discriminate H
  | _ :: _ = ?pre ++ _ :: _ =>
      let x := fresh "x" in
      let Hy := fresh "Hy" in
      destruct pre as [|x pre]; simpl in H;
      [ apply cons_eq_inv in H; destruct H as [Hx H]
      | apply cons_eq_inv in H; destruct H as [Hy H]; subst x;
        locate_call H Hx ]
  end.

(** A call made by [create_coax_and_port] sits in the script, followed
    there by the calls made after it. *)
Lemma made_call_in_script (b : Builder) (a : feed_args)
      (pre post : list build_call) (c : build_call) :
  fst (create_coax_and_port (Some b) a []) = pre ++ c :: post ->
  exists rest, feed_script a = pre ++ c :: post ++ rest.
Proof.
  intros Hmade.
  destruct (feed_run_fail_stop b a) as [[rest Hpre] _].
  exists rest. rewrite Hpre, Hmade, <- app_assoc. reflexivity.
Qed.

(** X14. With [make_ground_cut] off the ground solid is left alone:
    whatever the builder does, no Boolean subtraction is among the calls
    made. *)
Theorem no_ground_cut_no_subtract (b : Builder) (a : feed_args) :
  make_ground_cut a = false ->
  Forall (fun c => is_subtract c = false)
         (fst (create_coax_and_port (Some b) a [])).
Proof.
  intros Hcut.
  destruct (feed_run_fail_stop b a) as [Hpre _].
  apply (prefix_of_Forall _ _ _ Hpre).
  rewrite feed_script_calls, Hcut. simpl.
  repeat constructor.
Qed.

Lemma no_ground_cut_no_subtract_witness :
  Forall (fun c => is_subtract c = false)
         (fst (create_coax_and_port (Some obliging)
                 (mkFeedArgs 0 0 (-3) 0.6 0.65 2.05 3
                    "Coax" "InnerConn" "ConSubstrate" "OuterShield"
                    "Copper (annealed)" "PTFE (lossy)" "Copper (annealed)"
                    false "component1:Groundplane" 1 "zmin") [])).
Proof.
  apply (no_ground_cut_no_subtract obliging
           (mkFeedArgs 0 0 (-3) 0.6 0.65 2.05 3
              "Coax" "InnerConn" "ConSubstrate" "OuterShield"
              "Copper (annealed)" "PTFE (lossy)" "Copper (annealed)"
              false "component1:Groundplane" 1 "zmin")).
  reflexivity.
Defined.

(** X15. Every cylinder the function creates, in any run, is coaxial with
    the feed: centred on [(xfeed, yfeed)], starting at [feed_z_bot],
    oriented along z and stored in [coax_component]. *)
Theorem cylinders_are_coaxial (b : Builder) (a : feed_args) :
  Forall (fun c =>
            match c with
            | addCylinder x y z_min _ _ _ _ component _ axis =>
                x = xfeed a /\ y = yfeed a /\ z_min = feed_z_bot a /\
                component = coax_component a /\ axis = "z"%string
            | _ => True
            end)
         (fst (create_coax_and_port (Some b) a [])).
Proof.
  destruct (feed_run_fail_stop b a) as [Hpre _].
  apply (prefix_of_Forall _ _ _ Hpre).
  rewrite feed_script_calls.
  destruct (make_ground_cut a); simpl; repeat constructor.
Qed.

(** X16. The Boolean subtraction is only ever made with
    [make_ground_cut] on, as the last step of the cut: it subtracts
    [coax_component:CoaxCut] from [ground_component], and the call just
    before it created that vacuum cylinder, of the shield's outer radius
    and the inner pin's height, and returned. *)
Theorem subtract_follows_its_tool (b : Builder) (a : feed_args)
        (pre post : list build_call) (object1 object2 : string) :
  fst (create_coax_and_port (Some b) a [])
    = pre ++ subtract object1 object2 :: post ->
  make_ground_cut a = true /\
  object1 = ground_component a /\
  object2 = (coax_component a ++ ":CoaxCut")%string /\
  exists before,
    pre = before ++
          [addCylinder (xfeed a) (yfeed a) (feed_z_bot a) (feed_z_top a)
                       (outer_shield_outer_rad a) 0
                       "CoaxCut" (coax_component a) "Vacuum" "z"] /\
    perform b before
      (addCylinder (xfeed a) (yfeed a) (feed_z_bot a) (feed_z_top a)
                   (outer_shield_outer_rad a) 0
                   "CoaxCut" (coax_component a) "Vacuum" "z") = None.
Proof.
  intros Hmade.
  destruct (made_call_in_script b a _ _ _ Hmade) as [rest Hs].
  destruct (feed_run_fail_stop b a) as [_ [Hret _]].
  rewrite feed_script_calls in Hs.
  destruct (make_ground_cut a); simpl in Hs;
    locate_call Hs Hx; try discriminate Hx.
  injection Hx as <- <-.
  repeat split.
  exists (firstn 7 (feed_script a)).
  rewrite feed_script_calls. split; [reflexivity|]. simpl firstn.
  apply (Hret _ _ (subtract (ground_component a)
                            (coax_component a ++ ":CoaxCut") :: post)).
  - rewrite Hmade. reflexivity.
  - discriminate.
Qed.

Lemma subtract_follows_its_tool_witness :
  make_ground_cut feed_defaults = true /\
  "component1:Groundplane"%string = ground_component feed_defaults /\
  "Coax:CoaxCut"%string = (coax_component feed_defaults ++ ":CoaxCut")%string.
Proof.
  destruct (subtract_follows_its_tool obliging feed_defaults
              (firstn 8 (feed_script feed_defaults))
              (skipn 9 (feed_script feed_defaults))
              "component1:Groundplane" "Coax:CoaxCut" eq_refl)
    as [H1 [H2 [H3 _]]].
  repeat split; assumption.
Defined.

(** X17. The waveguide port is defined last and only on a complete
    structure: if the port call is among the calls made, then it is the
    last one, the whole script was performed, and every call before it
    (materials, component, solids and, when asked for, the ground cut)
    had returned. *)
Theorem port_is_defined_last (b : Builder) (a : feed_args)
        (pre post : list build_call) (c : build_call) :
  fst (create_coax_and_port (Some b) a []) = pre ++ c :: post ->
  is_addWaveguidePort c = true ->
  post = [] /\
  pre ++ [c] = feed_script a /\
  (forall before c' after, pre = before ++ c' :: after ->
     perform b before c' = None).
Proof.
  intros Hmade Hport.
  destruct (made_call_in_script b a _ _ _ Hmade) as [rest Hs].
  destruct (feed_run_fail_stop b a) as [_ [Hret _]].
  assert (Hpost : post = [] /\ pre ++ [c] = feed_script a).
  { rewrite feed_script_calls in *.
    destruct (make_ground_cut a); simpl in Hs;
      locate_call Hs Hx; subst c; try discriminate Hport;
      (destruct post; [|discriminate Hs]); split; reflexivity. }
  destruct Hpost as [-> Hfull]. repeat split; [exact Hfull|].
  intros before c' after Hpre.
  apply (Hret before c' (after ++ [c])).
  - rewrite Hmade, Hpre, <- app_assoc. reflexivity.
  - destruct after; discriminate.
Qed.

Lemma port_is_defined_last_witness :
  skipn 10 (feed_script feed_defaults) = [] /\
  firstn 9 (feed_script feed_defaults)
    ++ [addWaveguidePort (-3) 3 (-3) 3 (-3) (-3) "zmin" 1]
  = feed_script feed_defaults.
Proof.
  destruct (port_is_defined_last obliging feed_defaults
              (firstn 9 (feed_script feed_defaults))
              (skipn 10 (feed_script feed_defaults))
              (addWaveguidePort (-3) 3 (-3) 3 (-3) (-3) "zmin" 1)
              eq_refl eq_refl)
    as [H1 [H2 _]].
  split; assumption.
Defined.

(** X18. Materials are loaded before they are used: in any run, a
    cylinder is either the vacuum cylinder of the ground cut or is made
    of a material whose [addMaterialFromLib] request was made earlier and
    had returned. *)
Theorem materials_loaded_before_use (b : Builder) (a : feed_args)
        (pre post : list build_call)
        (x y z_min z_max ext_rad int_rad : float)
        (name component material axis : string) :
  fst (create_coax_and_port (Some b) a [])
    = pre ++ addCylinder x y z_min z_max ext_rad int_rad
                         name component material axis :: post ->
  (name = "CoaxCut"%string /\ material = "Vacuum"%string) \/
  exists before after,
    pre = before ++ addMaterialFromLib material :: after /\
    perform b before (addMaterialFromLib material) = None.
Proof.
  intros Hmade.
  destruct (made_call_in_script b a _ _ _ Hmade) as [rest Hs].
  destruct (feed_run_fail_stop b a) as [_ [Hret _]].
  assert (Hcases :
    (name = "CoaxCut"%string /\ material = "Vacuum"%string) \/
    exists before after,
      pre = before ++ addMaterialFromLib material :: after).
  { rewrite feed_script_calls in Hs.
    destruct (make_ground_cut a); simpl in Hs;
      locate_call Hs Hx; try discriminate Hx;
      injection Hx as _ _ _ _ _ _ <- _ <- _;
      first
        [ left; split; reflexivity
        | right; exists []; eexists; reflexivity
        | right; exists [addMaterialFromLib (inner_mat a)]; eexists;
          reflexivity
        | right;
          exists [addMaterialFromLib (inner_mat a);
                  addMaterialFromLib (consub_mat a)];
          eexists; reflexivity ]. }
  destruct Hcases as [H|[before [after Hpre]]]; [left; exact H|right].
  exists before, after. split; [exact Hpre|].
  apply (Hret before _
           (after ++ addCylinder x y z_min z_max ext_rad int_rad
                                 name component material axis :: post)).
  - rewrite Hmade, Hpre, <- app_assoc. reflexivity.
  - destruct after; discriminate.
Qed.

Lemma materials_loaded_before_use_witness :
  ("OuterShield"%string = "CoaxCut"%string /\
   "Copper (annealed)"%string = "Vacuum"%string) \/
  exists before after,
    firstn 6 (feed_script feed_defaults)
      = before ++ addMaterialFromLib "Copper (annealed)" :: after /\
    perform obliging before (addMaterialFromLib "Copper (annealed)") = None.
Proof.
  apply (materials_loaded_before_use obliging feed_defaults
           (firstn 6 (feed_script feed_defaults))
           (skipn 7 (feed_script feed_defaults))
           0 0 (-3) 0 3 2.05 "OuterShield" "Coax" "Copper (annealed)" "z").
  reflexivity.
Defined.

(* ===================================================================== *)
(** ** Not-a-number magnitudes *)
(* ===================================================================== *)

Lemma float_add_nan_l (y : float) : (nan + y)%float = nan.
Proof.
  apply Prim2SF_inj. rewrite add_spec. reflexivity.
Qed.

Lemma float_add_nan_r (x : float) : (x + nan)%float = nan.
Proof.
  rewrite float_add_comm. apply float_add_nan_l.
Qed.

Lemma float_leb_nan_l (y : float) : (nan <=? y)%float = false.
Proof.
  rewrite leb_spec. reflexivity.
Qed.

Lemma float_leb_nan_r (x : float) : (x <=? nan)%float = false.
Proof.
  rewrite leb_spec. change (Prim2SF nan) with S754_nan.
  destruct (Prim2SF x); reflexivity.
Qed.

Lemma float_div_nan_r (x : float) : (x / nan)%float = nan.
Proof.
  apply Prim2SF_inj. rewrite div_spec.
  change (Prim2SF nan) with S754_nan.
  destruct (Prim2SF x); reflexivity.
Qed.

(** X19. The floor does not mask a NaN.  When either magnitude read from
    a list answer is NaN, the comparison [right >= left] is false, so
    [emax] is [left] and [emin] is [right]; their difference is NaN;
    [max(emax - emin, 1e-300)] returns its first argument, the NaN, and
    not the floor; the quotient is NaN, and [get_axial_ratio_at_freq]
    returns [20 * log10(NaN)] without raising. *)
Theorem axial_ratio_of_nan (rt : runtime) (cst : CST)
        (target_freq port mode : pyobj)
        (e0 e1 : pyobj) (rest : list pyobj) (right left : float) :
  right = nan \/ left = nan ->
  getFarField cst (efield_query target_freq port mode)
    = Returns (e0 :: e1 :: rest) ->
  scalar_of rt e0 = Some right ->
  scalar_of rt e1 = Some left ->
  exists e_max e_min denominator : float,
    float_ge right left = false /\
    (e_max, e_min) = (left, right) /\
    (e_max - e_min)%float = nan /\
    denominator = py_max (e_max - e_min) floor_eps /\
    denominator = nan /\
    denominator <> floor_eps /\
    ((e_max + e_min) / denominator)%float = nan /\
    outcome_of (run (get_axial_ratio_at_freq rt (Some cst)
                       target_freq port mode))
    = Ok (20 * np_log10 rt ((e_max + e_min) / denominator))%float /\
    outcome_of (run (get_axial_ratio_at_freq rt (Some cst)
                       target_freq port mode))
    = Ok (20 * np_log10 rt nan)%float.
Proof.
  intros Hnan Hq H0 H1.
  assert (Hge : float_ge right left = false).
  { unfold float_ge. destruct Hnan as [-> | ->];
      [apply float_leb_nan_r | apply float_leb_nan_l]. }
  assert (Hsub : (left - right)%float = nan).
  { destruct Hnan as [-> | ->];
      [apply float_sub_nan_r | apply float_sub_nan_l]. }
  exists left, right, (py_max (left - right) floor_eps).
  rewrite (get_axial_ratio_at_freq_answer rt cst _ _ _ e0 e1 rest _ _ Hq H0 H1).
  unfold outcome_of, select_extremes, axial_ratio_formula; cbn [snd].
  rewrite Hge; cbn [fst snd]. rewrite Hsub, py_max_nan_l, float_div_nan_r.
  repeat split; try reflexivity.
  intros H. assert (E : (floor_eps =? floor_eps)%float = true) by reflexivity.
  rewrite <- H in E. discriminate E.
Qed.

Lemma axial_ratio_of_nan_witness :
  exists e_max e_min denominator : float,
    float_ge 1 nan = false /\
    (e_max, e_min) = (nan, 1%float) /\
    (e_max - e_min)%float = nan /\
    denominator = py_max (e_max - e_min) floor_eps /\
    denominator = nan /\
    denominator <> floor_eps /\
    ((e_max + e_min) / denominator)%float = nan /\
    outcome_of (run (get_axial_ratio_at_freq table_runtime
                       (Some (answering [PyFloat 1; PyFloat nan]))
                       (PyFloat 0.868) (PyInt 1) (PyInt 0)))
    = Ok (20 * np_log10 table_runtime ((e_max + e_min) / denominator))%float /\
    outcome_of (run (get_axial_ratio_at_freq table_runtime
                       (Some (answering [PyFloat 1; PyFloat nan]))
                       (PyFloat 0.868) (PyInt 1) (PyInt 0)))
    = Ok (20 * np_log10 table_runtime nan)%float.
Proof.
  apply (axial_ratio_of_nan table_runtime
           (answering [PyFloat 1; PyFloat nan])
           (PyFloat 0.868) (PyInt 1) (PyInt 0)
           (PyFloat 1) (PyFloat nan) [] 1 nan);
    [right; reflexivity | reflexivity | reflexivity | reflexivity].
Defined.

(** X20. The axial-ratio reduction on a list answer.  For every pair of
    magnitudes [right], [left] read from the first two entries,
    [get_axial_ratio_at_freq] takes [emax], [emin] to be the two values
    in one order or the other, the larger and the smaller when both are
    numbers; the denominator is the larger of [emax - emin] and the
    floor [1e-300] when the difference is a number, and the NaN itself
    when it is not; it is never zero, and the helper returns exactly
    [20 * log10((emax + emin) / denominator)]. *)
Theorem axial_ratio_on_list_answer (rt : runtime) (cst : CST)
        (target_freq port mode : pyobj)
        (e0 e1 : pyobj) (rest : list pyobj) (right left : float) :
  getFarField cst (efield_query target_freq port mode)
    = Returns (e0 :: e1 :: rest) ->
  scalar_of rt e0 = Some right ->
  scalar_of rt e1 = Some left ->
  exists e_max e_min denominator : float,
    ((e_max, e_min) = (right, left) \/ (e_max, e_min) = (left, right)) /\
    (right <> nan -> left <> nan ->
     float_max_of e_max right left /\ float_min_of e_min right left) /\
    floor_eps = 1e-300%float /\
    (0 <? floor_eps)%float = true /\
    ((e_max - e_min)%float <> nan ->
     float_max_of denominator (e_max - e_min) floor_eps) /\
    ((e_max - e_min)%float = nan -> denominator = nan) /\
    (denominator =? 0)%float = false /\
    outcome_of (run (get_axial_ratio_at_freq rt (Some cst)
                       target_freq port mode))
    = Ok (20 * np_log10 rt ((e_max + e_min) / denominator))%float.
Proof.
  intros Hq H0 H1.
  exists (fst (select_extremes right left)),
         (snd (select_extremes right left)),
         (py_max (fst (select_extremes right left)
                  - snd (select_extremes right left)) floor_eps).
  split; [|split; [|split; [|split; [|split; [|split; [|split]]]]]].
  - rewrite <- surjective_pairing. apply select_extremes_cases.
  - apply select_extremes_max_min.
  - reflexivity.
  - apply floor_eps_positive.
  - intros Hd. apply py_max_is_max; [exact Hd | exact floor_eps_is_number].
  - intros Hd. rewrite Hd. apply py_max_nan_l.
  - apply py_max_floor_nonzero.
  - rewrite (get_axial_ratio_at_freq_answer rt cst _ _ _ e0 e1 rest _ _ Hq H0 H1).
    reflexivity.
Qed.

Lemma axial_ratio_on_list_answer_witness :
  exists e_max e_min denominator : float,
    ((e_max, e_min) = (2, 0) \/ (e_max, e_min) = (0, 2))%float /\
    (2%float <> nan -> 0%float <> nan ->
     float_max_of e_max 2 0 /\ float_min_of e_min 2 0) /\
    floor_eps = 1e-300%float /\
    (0 <? floor_eps)%float = true /\
    ((e_max - e_min)%float <> nan ->
     float_max_of denominator (e_max - e_min) floor_eps) /\
    ((e_max - e_min)%float = nan -> denominator = nan) /\
    (denominator =? 0)%float = false /\
    outcome_of (run (get_axial_ratio_at_freq table_runtime
                       (Some (answering [PyFloat 2; PyFloat 0]))
                       (PyFloat 0.868) (PyInt 1) (PyInt 0)))
    = Ok (20 * np_log10 table_runtime ((e_max + e_min) / denominator))%float.
Proof.
  apply (axial_ratio_on_list_answer table_runtime
           (answering [PyFloat 2; PyFloat 0])
           (PyFloat 0.868) (PyInt 1) (PyInt 0)
           (PyFloat 2) (PyFloat 0) [] 2 0);
    reflexivity.
Defined.

(** X21. A list answer with fewer than two entries, the empty list
    included: both helpers end with the RuntimeError of an incomplete
    result before any entry is read; no IndexError escapes. *)
Theorem incomplete_list_answer (rt : runtime) (cst : CST)
        (target_freq port mode : pyobj) (values : list pyobj) :
  (List.length values < 2)%nat ->
  (getFarField cst (gain_query target_freq port mode) = Returns values ->
   outcome_of (run (get_gain_at_freq rt (Some cst) target_freq port mode))
   = Raise (new_exn RuntimeError incomplete_msg)) /\
  (getFarField cst (efield_query target_freq port mode) = Returns values ->
   outcome_of (run (get_axial_ratio_at_freq rt (Some cst)
                      target_freq port mode))
   = Raise (new_exn RuntimeError incomplete_msg)).
Proof.
  intros Hlen. split; intros Hq.
  - rewrite (get_gain_at_freq_incomplete rt cst _ _ _ values Hq Hlen).
    reflexivity.
  - rewrite (get_axial_ratio_at_freq_incomplete rt cst _ _ _ values Hq Hlen).
    reflexivity.
Qed.

Lemma incomplete_list_answer_witness :
  outcome_of (run (get_gain_at_freq table_runtime
                     (Some (answering [PyFloat 3]))
                     (PyFloat 0.868) (PyInt 1) (PyInt 0)))
  = Raise (new_exn RuntimeError incomplete_msg) /\
  outcome_of (run (get_axial_ratio_at_freq table_runtime
                     (Some (answering [PyFloat 3]))
                     (PyFloat 0.868) (PyInt 1) (PyInt 0)))
  = Raise (new_exn RuntimeError incomplete_msg).
Proof.
  assert (Hlen : (List.length [PyFloat 3] < 2)%nat) by (simpl; lia).
  destruct (incomplete_list_answer table_runtime (answering [PyFloat 3])
              (PyFloat 0.868) (PyInt 1) (PyInt 0) [PyFloat 3] Hlen)
    as [Hgain Haxial].
  split; [apply Hgain | apply Haxial]; reflexivity.
Defined.
